(** * A shallow embedding of the FT232 wrapper of QtFT2XX (qft2xx.h / qft2xx.cpp)

    The FTD2XX driver is the external collaborator: every driver call made by
    the class is recorded in an event trace, together with the mutex
    operations and the Qt signals that are emitted, and the driver's answer to
    each call is read from a [Driver] record, so that one run of a method is a
    function of the object state, the trace and the driver answers. *)

From Stdlib Require Import ZArith List String Ascii Bool Lia.
Import ListNotations.
Open Scope Z_scope.

(** ** Driver constants (ftd2xx.h) *)

Definition FT_STATUS := Z.
Definition FT_OK : FT_STATUS := 0.
Definition FT_INVALID_HANDLE : FT_STATUS := 1.
Definition FT_IO_ERROR : FT_STATUS := 4.

Definition FT_BITS_8 : Z := 8.
Definition FT_STOP_BITS_1 : Z := 0.
Definition FT_STOP_BITS_2 : Z := 2.
Definition FT_PARITY_NONE : Z := 0.
Definition FT_PARITY_ODD : Z := 1.
Definition FT_PARITY_EVEN : Z := 2.
Definition FT_PARITY_MARK : Z := 3.
Definition FT_PARITY_SPACE : Z := 4.

Definition FT_FLOW_NONE : Z := 0.
Definition FT_FLOW_RTS_CTS : Z := 256.
Definition FT_FLOW_DTR_DSR : Z := 512.
Definition FT_FLOW_XON_XOFF : Z := 1024.

Definition FT_PURGE_RX : Z := 1.
Definition FT_PURGE_TX : Z := 2.

Definition FT_EVENT_RXCHAR : Z := 1.
Definition FT_EVENT_MODEM_STATUS : Z := 2.

(** Constants of qft2xx.h *)
Definition FTDI_LATENCY : Z := 3.
Definition FTDI_VID : Z := 1027.  (* 0x0403 *)
Definition FTDI_PID : Z := 24577. (* 0x6001 *)

(** ** The enums and flags of class FT232 *)

(** [PortError] values, combined as a bit set in [PortErrors]. *)
Definition NoError : Z := 0.
Definition NotOpenError : Z := 1.
Definition OverrunError : Z := 2.
Definition ParityError : Z := 4.
Definition FramingError : Z := 16.
Definition BreakConditionError : Z := 32.
Definition FIFOError : Z := 64.
Definition ReadError : Z := 128.

Inductive LineProperty :=
| SERIAL_8N1 | SERIAL_8N2 | SERIAL_8E1 | SERIAL_8E2
| SERIAL_8O1 | SERIAL_8O2 | SERIAL_8M1 | SERIAL_8M2
| SERIAL_8S1 | SERIAL_8S2.

Inductive FlowControl :=
| NoFlowControl | HardwareControl | SoftwareControl | DTR_DSR_FlowControl.

(** [QIODevice::OpenMode] values used here. *)
Definition NotOpen : Z := 0.
Definition ReadWrite : Z := 3.

(** unsigned 32-bit conversion ([uint32_t], [DWORD], [ulong] on Windows) and
    the signed conversion back to [qint32]. *)
Definition to_uint32 (x : Z) : Z := x mod 2 ^ 32.
Definition to_int32 (x : Z) : Z :=
  let u := x mod 2 ^ 32 in if u <? 2 ^ 31 then u else u - 2 ^ 32.
(** [uchar] conversion. *)
Definition to_uchar (x : Z) : Z := x mod 256.

(** ** Object state *)

Record FT232 := mkFT232 {
  FTDIdtr : bool;
  FTDIrts : bool;
  FTDIlineProperty : LineProperty;
  FTDIflowControl : FlowControl;
  errFlag : Z;
  FTDIbaudRate : Z;            (* uint32_t, default 115200 *)
  usbVID : Z;
  usbPID : Z;
  productName : string;
  serialNmb : string;
  manufacturerName : string;
  libraryVersion : Z * Z * Z;
  FTDIreadBuffer : list Byte.byte;
  sem : nat;                   (* QSemaphore count *)
  openMode : Z;                (* QIODevice::openMode() *)
  errorString : string         (* QIODevice::errorString() *)
}.

Definition isOpen (s : FT232) : bool := negb (openMode s =? NotOpen).

(** The record fields that the code updates. *)
Definition set_errFlag (e : Z) (s : FT232) : FT232 :=
  {| FTDIdtr := FTDIdtr s; FTDIrts := FTDIrts s; FTDIlineProperty := FTDIlineProperty s;
     FTDIflowControl := FTDIflowControl s; errFlag := e; FTDIbaudRate := FTDIbaudRate s;
     usbVID := usbVID s; usbPID := usbPID s; productName := productName s;
     serialNmb := serialNmb s; manufacturerName := manufacturerName s;
     libraryVersion := libraryVersion s; FTDIreadBuffer := FTDIreadBuffer s;
     sem := sem s; openMode := openMode s; errorString := errorString s |}.

Definition set_errorString (m : string) (s : FT232) : FT232 :=
  {| FTDIdtr := FTDIdtr s; FTDIrts := FTDIrts s; FTDIlineProperty := FTDIlineProperty s;
     FTDIflowControl := FTDIflowControl s; errFlag := errFlag s; FTDIbaudRate := FTDIbaudRate s;
     usbVID := usbVID s; usbPID := usbPID s; productName := productName s;
     serialNmb := serialNmb s; manufacturerName := manufacturerName s;
     libraryVersion := libraryVersion s; FTDIreadBuffer := FTDIreadBuffer s;
     sem := sem s; openMode := openMode s; errorString := m |}.

Definition set_openMode (m : Z) (s : FT232) : FT232 :=
  {| FTDIdtr := FTDIdtr s; FTDIrts := FTDIrts s; FTDIlineProperty := FTDIlineProperty s;
     FTDIflowControl := FTDIflowControl s; errFlag := errFlag s; FTDIbaudRate := FTDIbaudRate s;
     usbVID := usbVID s; usbPID := usbPID s; productName := productName s;
     serialNmb := serialNmb s; manufacturerName := manufacturerName s;
     libraryVersion := libraryVersion s; FTDIreadBuffer := FTDIreadBuffer s;
     sem := sem s; openMode := m; errorString := errorString s |}.

Definition set_buffer (b : list Byte.byte) (n : nat) (s : FT232) : FT232 :=
  {| FTDIdtr := FTDIdtr s; FTDIrts := FTDIrts s; FTDIlineProperty := FTDIlineProperty s;
     FTDIflowControl := FTDIflowControl s; errFlag := errFlag s; FTDIbaudRate := FTDIbaudRate s;
     usbVID := usbVID s; usbPID := usbPID s; productName := productName s;
     serialNmb := serialNmb s; manufacturerName := manufacturerName s;
     libraryVersion := libraryVersion s; FTDIreadBuffer := b;
     sem := n; openMode := openMode s; errorString := errorString s |}.

Definition set_config (baud : Z) (lp : LineProperty) (fc : FlowControl) (dtr rts : bool)
  (s : FT232) : FT232 :=
  {| FTDIdtr := dtr; FTDIrts := rts; FTDIlineProperty := lp;
     FTDIflowControl := fc; errFlag := errFlag s; FTDIbaudRate := baud;
     usbVID := usbVID s; usbPID := usbPID s; productName := productName s;
     serialNmb := serialNmb s; manufacturerName := manufacturerName s;
     libraryVersion := libraryVersion s; FTDIreadBuffer := FTDIreadBuffer s;
     sem := sem s; openMode := openMode s; errorString := errorString s |}.

Definition set_identity (pn sn mn : string) (lv : Z * Z * Z) (s : FT232) : FT232 :=
  {| FTDIdtr := FTDIdtr s; FTDIrts := FTDIrts s; FTDIlineProperty := FTDIlineProperty s;
     FTDIflowControl := FTDIflowControl s; errFlag := errFlag s; FTDIbaudRate := FTDIbaudRate s;
     usbVID := usbVID s; usbPID := usbPID s; productName := pn;
     serialNmb := sn; manufacturerName := mn;
     libraryVersion := lv; FTDIreadBuffer := FTDIreadBuffer s;
     sem := sem s; openMode := openMode s; errorString := errorString s |}.

(** ** Observable effects: driver calls, mutex operations, signals *)

Inductive Signal :=
| baudRateChanged (b : Z)
| linePropertyChanged (l : LineProperty)
| flowControlChanged (f : FlowControl)
| dataTerminalReadyChanged (b : bool)
| requestToSendChanged (b : bool)
| errorOccurred
| readyRead                  (* FT232::readyRead *)
| QIODevice_readyRead        (* QIODevice::readyRead *)
| connected
| aboutToClose.

Inductive Event :=
| MutexLock
| MutexUnlock
| Call_CreateDeviceInfoList
| Call_GetDeviceInfoList
| Call_Open (index : nat)
| Call_Close
| Call_SetBaudRate (baud : Z)
| Call_SetLatencyTimer (t : Z)
| Call_SetTimeouts (rd wr : Z)
| Call_EE_Read
| Call_GetLibraryVersion
| Call_Purge (mask : Z)
| Call_SetEventNotification (mask : Z)
| Call_Write (data : list Byte.byte)
| Call_SetDataCharacteristics (bits sbit parity : Z)
| Call_SetFlowControl (flow xon xoff : Z)
| Call_SetDtr | Call_ClrDtr | Call_SetRts | Call_ClrRts
| Call_GetModemStatus
| Call_GetStatus
| Call_GetQueueStatus
| Call_Read (n : nat)
| Emit (sg : Signal).

(** A driver call is every event but the mutex and the signals. *)
Definition is_driver_call (e : Event) : bool :=
  match e with
  | MutexLock | MutexUnlock | Emit _ => false
  | _ => true
  end.

(** The answers of the driver to each call ([FT_Close]'s answer is never
    looked at by the code, and [FT_Purge]'s neither). *)
Record Driver := mkDriver {
  drv_CreateDeviceInfoList : FT_STATUS;
  drv_GetDeviceInfoList : FT_STATUS * list Z;   (* the ID field of each node *)
  drv_Open : nat -> FT_STATUS;
  drv_SetBaudRate : Z -> FT_STATUS;
  drv_SetLatencyTimer : FT_STATUS;
  drv_SetTimeouts : FT_STATUS;
  drv_EE_Read : FT_STATUS * (string * string * string); (* description, serial, manufacturer *)
  drv_GetLibraryVersion : FT_STATUS * Z;
  drv_SetEventNotification : FT_STATUS;
  drv_Write : list Byte.byte -> FT_STATUS * Z;   (* status, bytes written *)
  drv_SetDataCharacteristics : FT_STATUS;
  drv_SetFlowControl : FT_STATUS;
  drv_SetClrDtr : FT_STATUS;
  drv_SetClrRts : FT_STATUS;
  drv_GetModemStatus : FT_STATUS * Z;
  drv_GetStatus : FT_STATUS * (Z * Z * Z);      (* RxBytes, TxBytes, EventDWord *)
  drv_GetQueueStatus : FT_STATUS * nat;
  drv_Read : nat -> FT_STATUS * list Byte.byte
}.

(** A world: the object and the trace of what it did, oldest first. *)
Record World := mkWorld { dev : FT232; trace : list Event }.

(** ** A state monad over the world *)

Definition M (A : Type) : Type := World -> A * World.

Definition ret {A} (a : A) : M A := fun w => (a, w).
Definition bind {A B} (m : M A) (k : A -> M B) : M B :=
  fun w => let (a, w') := m w in k a w'.

Notation "x <- m ;; k" := (bind m (fun x => k)) (at level 61, m at next level, right associativity).
Notation "m ;;; k" := (bind m (fun _ => k)) (at level 61, right associativity).

Definition get : M FT232 := fun w => (dev w, w).
Definition modify (f : FT232 -> FT232) : M unit :=
  fun w => (tt, mkWorld (f (dev w)) (trace w)).
Definition log (e : Event) : M unit :=
  fun w => (tt, mkWorld (dev w) (trace w ++ [e])).
Definition emit (s : Signal) : M unit := log (Emit s).
Definition setErrorString (m : string) : M unit := modify (set_errorString m).

(** [QString::toUpper] on the ASCII range. *)
Definition ascii_upper (c : ascii) : ascii :=
  let n := nat_of_ascii c in
  if (97 <=? n)%nat && (n <=? 122)%nat then ascii_of_nat (n - 32) else c.
Fixpoint toUpper (s : string) : string :=
  match s with
  | EmptyString => EmptyString
  | String c s' => String (ascii_upper c) (toUpper s')
  end.

(** The first index whose node ID matches (the search loop of [open]). *)
Fixpoint find_device (id : Z) (ids : list Z) (i : nat) : option nat :=
  match ids with
  | [] => None
  | x :: xs => if x =? id then Some i else find_device id xs (S i)
  end.

Section Methods.
Variable drv : Driver.

(** [FT232::close] *)
Definition close : M unit :=
  log MutexLock;;;
  log Call_Close;;;
  log MutexUnlock;;;
  modify (set_openMode NotOpen);;;
  emit aboutToClose.

(** [FT232::open] *)
Definition open (mode : Z) : M bool :=
  log Call_CreateDeviceInfoList;;;
  if negb (drv_CreateDeviceInfoList drv =? FT_OK) then
    setErrorString "an error occured while enumerating devices";;; ret false
  else
  log Call_GetDeviceInfoList;;;
  let (ret1, ids) := drv_GetDeviceInfoList drv in
  if negb (ret1 =? FT_OK) then
    setErrorString "an error occured while obtaining device info list";;; ret false
  else
  s <- get;;
  match find_device (to_uint32 (usbVID s * 65536 + usbPID s)) ids 0 with
  | None => setErrorString "no compatible devices found";;; ret false
  | Some deviceId =>
    log (Call_Open deviceId);;;
    if negb (drv_Open drv deviceId =? FT_OK) then
      setErrorString "an error occured while opening the device";;; ret false
    else
    log (Call_SetBaudRate (FTDIbaudRate s));;;
    if negb (drv_SetBaudRate drv (FTDIbaudRate s) =? FT_OK) then
      setErrorString "an error occured while setting the baudrate";;; close;;; ret false
    else
    log (Call_SetLatencyTimer FTDI_LATENCY);;;
    if negb (drv_SetLatencyTimer drv =? FT_OK) then
      setErrorString "an error occured while setting the latency timer";;; close;;; ret false
    else
    log (Call_SetTimeouts 5000 2000);;;
    if negb (drv_SetTimeouts drv =? FT_OK) then
      setErrorString "an error occured while setting the timeouts";;; close;;; ret false
    else
    log Call_EE_Read;;;
    let (ret2, ee) := drv_EE_Read drv in
    if negb (ret2 =? FT_OK) then
      setErrorString "an error occured while reading the EEPROM";;; close;;; ret false
    else
    let '(descr, serial, manuf) := ee in
    log Call_GetLibraryVersion;;;
    let (ret3, libVer) := drv_GetLibraryVersion drv in
    if negb (ret3 =? FT_OK) then
      (* the identity fields are already stored at this point *)
      modify (fun s => set_identity descr (toUpper serial) manuf (libraryVersion s) s);;;
      setErrorString "an error occured while getting the FTD2XX library version";;;
      close;;; ret false
    else
    modify (set_identity descr (toUpper serial) manuf
              (to_uchar (Z.land libVer 16711680), to_uchar (Z.land libVer 65280),
               to_uchar (Z.land libVer 255)));;;
    log (Call_Purge (Z.lor FT_PURGE_RX FT_PURGE_TX));;;
    modify (set_openMode mode);;;
    log (Call_SetEventNotification (Z.lor FT_EVENT_RXCHAR FT_EVENT_MODEM_STATUS));;;
    if negb (drv_SetEventNotification drv =? FT_OK) then
      setErrorString "an error occured while setting the event notification";;; close;;; ret false
    else
    emit connected;;; ret true
  end.

(** [QSemaphore::tryAcquire(n)]: never blocks. *)
Definition tryAcquire (n : nat) : M bool :=
  s <- get;;
  if (n <=? sem s)%nat then
    modify (fun s => set_buffer (FTDIreadBuffer s) (sem s - n)%nat s);;; ret true
  else ret false.

(** [FT232::readData]: returns the count and the bytes copied to [data].
    [QIODevice::read] rejects a negative [maxSize] before calling it, so
    [maxSize] ranges over the naturals. *)
Definition readData (maxSize : nat) : M (nat * list Byte.byte) :=
  s <- get;;
  let n := Nat.min maxSize (List.length (FTDIreadBuffer s)) in
  if (n =? 0)%nat then ret (0%nat, []) else
  ok <- tryAcquire n;;
  if negb ok then ret (0%nat, []) else
  s <- get;;
  let data := firstn n (FTDIreadBuffer s) in
  modify (fun s => set_buffer (skipn n (FTDIreadBuffer s)) (sem s) s);;;
  ret (n, data).

(** [FT232::writeData] *)
Definition writeData (data : list Byte.byte) : M Z :=
  log MutexLock;;;
  log (Call_Write data);;;
  let (ret0, _bytesWritten) := drv_Write drv data in
  log MutexUnlock;;;
  if negb (ret0 =? FT_OK) then
    setErrorString "an error occured while writing to the port";;; ret (-1)
  else ret ret0.

(** [FT232::setBaudRate] ([baud] is a [qint32]). *)
Definition setBaudRate (baud : Z) : M bool :=
  modify (fun s => set_config (to_uint32 baud) (FTDIlineProperty s) (FTDIflowControl s)
                              (FTDIdtr s) (FTDIrts s) s);;;
  s <- get;;
  if negb (isOpen s) then ret true else
  log MutexLock;;;
  log (Call_SetBaudRate (FTDIbaudRate s));;;
  let r := drv_SetBaudRate drv (FTDIbaudRate s) in
  log MutexUnlock;;;
  if negb (r =? FT_OK) then
    setErrorString "an error occured while setting the baudrate";;; close;;; ret false
  else
  emit (baudRateChanged baud);;; ret true.

(** [FT232::baudRate] *)
Definition baudRate (s : FT232) : Z := to_int32 (FTDIbaudRate s).

(** The parity and stop bits of each line property, as in the switch. *)
Definition line_params (line : LineProperty) : Z * Z :=
  match line with
  | SERIAL_8N1 => (FT_PARITY_NONE, FT_STOP_BITS_1)
  | SERIAL_8N2 => (FT_PARITY_NONE, FT_STOP_BITS_2)
  | SERIAL_8E1 => (FT_PARITY_EVEN, FT_STOP_BITS_1)
  | SERIAL_8E2 => (FT_PARITY_EVEN, FT_STOP_BITS_2)
  | SERIAL_8O1 => (FT_PARITY_ODD, FT_STOP_BITS_1)
  | SERIAL_8O2 => (FT_PARITY_ODD, FT_STOP_BITS_2)
  | SERIAL_8M1 => (FT_PARITY_MARK, FT_STOP_BITS_1)
  | SERIAL_8M2 => (FT_PARITY_MARK, FT_STOP_BITS_2)
  | SERIAL_8S1 => (FT_PARITY_SPACE, FT_STOP_BITS_1)
  | SERIAL_8S2 => (FT_PARITY_SPACE, FT_STOP_BITS_2)
  end.

(** [FT232::setLineProperty] *)
Definition setLineProperty (line : LineProperty) : M bool :=
  modify (fun s => set_config (FTDIbaudRate s) line (FTDIflowControl s)
                              (FTDIdtr s) (FTDIrts s) s);;;
  let '(parity, sbit) := line_params line in
  log MutexLock;;;
  log (Call_SetDataCharacteristics FT_BITS_8 sbit parity);;;
  let r := drv_SetDataCharacteristics drv in
  log MutexUnlock;;;
  if negb (r =? FT_OK) then
    setErrorString "an error occured while setting the data characteristics";;; ret false
  else
  emit (linePropertyChanged line);;; ret true.

Definition flow_param (flow : FlowControl) : Z :=
  match flow with
  | NoFlowControl => FT_FLOW_NONE
  | HardwareControl => FT_FLOW_RTS_CTS
  | SoftwareControl => FT_FLOW_XON_XOFF
  | DTR_DSR_FlowControl => FT_FLOW_DTR_DSR
  end.

(** [FT232::setFlowControl] *)
Definition setFlowControl (flow : FlowControl) : M bool :=
  log MutexLock;;;
  log (Call_SetFlowControl (flow_param flow) 17 19);;;
  let r := drv_SetFlowControl drv in
  log MutexUnlock;;;
  if negb (r =? FT_OK) then
    setErrorString "an error occured while setting the flow control";;; ret false
  else
  modify (fun s => set_config (FTDIbaudRate s) (FTDIlineProperty s) flow
                              (FTDIdtr s) (FTDIrts s) s);;;
  emit (flowControlChanged flow);;; ret true.

(** [FT232::setDataTerminalReady] *)
Definition setDataTerminalReady (set : bool) : M bool :=
  s <- get;;
  if negb (isOpen s) then ret false else
  log MutexLock;;;
  log (if set then Call_SetDtr else Call_ClrDtr);;;
  let r := drv_SetClrDtr drv in
  log MutexUnlock;;;
  if negb (r =? FT_OK) then
    setErrorString "an error occured while setting the DTR";;; ret false
  else
  modify (fun s => set_config (FTDIbaudRate s) (FTDIlineProperty s) (FTDIflowControl s)
                              set (FTDIrts s) s);;;
  emit (dataTerminalReadyChanged set);;; ret true.

(** [FT232::setRequestToSend] *)
Definition setRequestToSend (set : bool) : M bool :=
  s <- get;;
  if negb (isOpen s) then ret false else
  log MutexLock;;;
  log (if set then Call_SetRts else Call_ClrRts);;;
  let r := drv_SetClrRts drv in
  log MutexUnlock;;;
  if negb (r =? FT_OK) then
    setErrorString "an error occured while setting the RTS";;; ret false
  else
  modify (fun s => set_config (FTDIbaudRate s) (FTDIlineProperty s) (FTDIflowControl s)
                              (FTDIdtr s) set s);;;
  emit (requestToSendChanged set);;; ret true.

(** The error-flag assignment shared by the failure paths of the handlers. *)
Definition fail_read (msg : string) : M unit :=
  setErrorString msg;;;
  s <- get;;
  modify (set_errFlag (if negb (isOpen s) then NotOpenError else ReadError));;;
  emit errorOccurred.

(** Mask of the serious modem errors: [0b1000111000000000]. *)
Definition serious_mask : Z := 36352.

(** The error half of the status word, as classified by [on_FTDImodemError]. *)
Definition modem_errors (modemStatus : Z) : Z :=
  let r := NoError in
  let r := if negb (Z.land modemStatus 32768 =? 0) then Z.lor r FIFOError else r in
  let r := if negb (Z.land modemStatus 4096 =? 0) then Z.lor r BreakConditionError else r in
  let r := if negb (Z.land modemStatus 2048 =? 0) then Z.lor r FramingError else r in
  let r := if negb (Z.land modemStatus 1024 =? 0) then Z.lor r ParityError else r in
  let r := if negb (Z.land modemStatus 512 =? 0) then Z.lor r OverrunError else r in
  r.

(** [FT232::on_FTDImodemError] *)
Definition on_FTDImodemError : M unit :=
  log MutexLock;;;
  log Call_GetModemStatus;;;
  let (r, modemStatus) := drv_GetModemStatus drv in
  log MutexUnlock;;;
  if negb (r =? FT_OK) then
    fail_read "an error occured while reading the device status"
  else
  if negb (Z.land modemStatus serious_mask =? 0) then
    log MutexLock;;;
    log (Call_Purge (Z.lor FT_PURGE_RX FT_PURGE_TX));;;
    log MutexUnlock
  else
  modify (set_errFlag (modem_errors modemStatus)).

(** [FT232::on_FTDIreceive] *)
Definition on_FTDIreceive : M unit :=
  log MutexLock;;;
  log Call_GetQueueStatus;;;
  let (r0, bytesAvailable) := drv_GetQueueStatus drv in
  (if (0 <? bytesAvailable)%nat then log (Call_Read bytesAvailable) else ret tt);;;
  let (r, buff) :=
    if (0 <? bytesAvailable)%nat then drv_Read drv bytesAvailable else (r0, []) in
  log MutexUnlock;;;
  if (0 <? bytesAvailable)%nat && (r =? FT_IO_ERROR) then
    fail_read "an IO error occured"
  else
  if (0 <? bytesAvailable)%nat && negb (r =? FT_OK) then
    fail_read "an error occured while reading bytes from the device"
  else
  if (0 <? bytesAvailable)%nat then
    modify (fun s => set_buffer (FTDIreadBuffer s ++ buff) (sem s + List.length buff)%nat s);;;
    emit readyRead;;;
    emit QIODevice_readyRead
  else ret tt.

(** [FT232::on_FTDIevent] *)
Definition on_FTDIevent : M unit :=
  log MutexLock;;;
  log Call_GetStatus;;;
  let '(r, (_RxBytes, _TxBytes, EventDWord)) := drv_GetStatus drv in
  log MutexUnlock;;;
  if negb (r =? FT_OK) then
    fail_read "an error occured while reading the device status"
  else
  if negb (Z.land EventDWord FT_EVENT_MODEM_STATUS =? 0) then on_FTDImodemError
  else if negb (Z.land EventDWord FT_EVENT_RXCHAR =? 0) then on_FTDIreceive
  else ret tt.

(** [FT232::error] *)
Definition error (s : FT232) : Z := errFlag s.

End Methods.

(** ** Sample objects and drivers *)

(** The object as the constructor leaves it, with [setPort()] defaults; the
    fields the constructor leaves uninitialised get arbitrary values here. *)
Definition ft_init : FT232 :=
  {| FTDIdtr := false; FTDIrts := false; FTDIlineProperty := SERIAL_8N1;
     FTDIflowControl := NoFlowControl; errFlag := NoError; FTDIbaudRate := 115200;
     usbVID := FTDI_VID; usbPID := FTDI_PID; productName := EmptyString; serialNmb := EmptyString;
     manufacturerName := EmptyString; libraryVersion := (0, 0, 0); FTDIreadBuffer := [];
     sem := 0%nat; openMode := NotOpen; errorString := EmptyString |}.

Definition world_init : World := mkWorld ft_init [].

(** A driver that accepts every call; it lists one matching device, answers
    [GetStatus] with [status], [GetModemStatus] with [modem], the queue with
    [q] bytes and a read with [rx]. *)
Definition drv_with (status : Z) (modem : Z) (q : nat) (rx : list Byte.byte) : Driver :=
  {| drv_CreateDeviceInfoList := FT_OK;
     drv_GetDeviceInfoList := (FT_OK, [to_uint32 (FTDI_VID * 65536 + FTDI_PID)]);
     drv_Open := fun _ => FT_OK;
     drv_SetBaudRate := fun _ => FT_OK;
     drv_SetLatencyTimer := FT_OK;
     drv_SetTimeouts := FT_OK;
     drv_EE_Read := (FT_OK, ("FT232R USB UART"%string, "a1b2"%string, "FTDI"%string));
     drv_GetLibraryVersion := (FT_OK, 197140);
     drv_SetEventNotification := FT_OK;
     drv_Write := fun data => (FT_OK, Z.of_nat (List.length data));
     drv_SetDataCharacteristics := FT_OK;
     drv_SetFlowControl := FT_OK;
     drv_SetClrDtr := FT_OK;
     drv_SetClrRts := FT_OK;
     drv_GetModemStatus := (FT_OK, modem);
     drv_GetStatus := (FT_OK, (Z.of_nat q, 0, status));
     drv_GetQueueStatus := (FT_OK, q);
     drv_Read := fun _ => (FT_OK, rx) |}.

(** The same driver with other answers to [FT_GetStatus] and [FT_SetBaudRate]. *)
Definition with_GetStatus (a : FT_STATUS * (Z * Z * Z)) (d : Driver) : Driver :=
  {| drv_CreateDeviceInfoList := drv_CreateDeviceInfoList d;
     drv_GetDeviceInfoList := drv_GetDeviceInfoList d;
     drv_Open := drv_Open d; drv_SetBaudRate := drv_SetBaudRate d;
     drv_SetLatencyTimer := drv_SetLatencyTimer d; drv_SetTimeouts := drv_SetTimeouts d;
     drv_EE_Read := drv_EE_Read d; drv_GetLibraryVersion := drv_GetLibraryVersion d;
     drv_SetEventNotification := drv_SetEventNotification d; drv_Write := drv_Write d;
     drv_SetDataCharacteristics := drv_SetDataCharacteristics d;
     drv_SetFlowControl := drv_SetFlowControl d; drv_SetClrDtr := drv_SetClrDtr d;
     drv_SetClrRts := drv_SetClrRts d; drv_GetModemStatus := drv_GetModemStatus d;
     drv_GetStatus := a; drv_GetQueueStatus := drv_GetQueueStatus d; drv_Read := drv_Read d |}.

Definition with_SetBaudRate (a : Z -> FT_STATUS) (d : Driver) : Driver :=
  {| drv_CreateDeviceInfoList := drv_CreateDeviceInfoList d;
     drv_GetDeviceInfoList := drv_GetDeviceInfoList d;
     drv_Open := drv_Open d; drv_SetBaudRate := a;
     drv_SetLatencyTimer := drv_SetLatencyTimer d; drv_SetTimeouts := drv_SetTimeouts d;
     drv_EE_Read := drv_EE_Read d; drv_GetLibraryVersion := drv_GetLibraryVersion d;
     drv_SetEventNotification := drv_SetEventNotification d; drv_Write := drv_Write d;
     drv_SetDataCharacteristics := drv_SetDataCharacteristics d;
     drv_SetFlowControl := drv_SetFlowControl d; drv_SetClrDtr := drv_SetClrDtr d;
     drv_SetClrRts := drv_SetClrRts d; drv_GetModemStatus := drv_GetModemStatus d;
     drv_GetStatus := drv_GetStatus d; drv_GetQueueStatus := drv_GetQueueStatus d;
     drv_Read := drv_Read d |}.

Definition with_DeviceInfoList (a : FT_STATUS * list Z) (d : Driver) : Driver :=
  {| drv_CreateDeviceInfoList := drv_CreateDeviceInfoList d;
     drv_GetDeviceInfoList := a;
     drv_Open := drv_Open d; drv_SetBaudRate := drv_SetBaudRate d;
     drv_SetLatencyTimer := drv_SetLatencyTimer d; drv_SetTimeouts := drv_SetTimeouts d;
     drv_EE_Read := drv_EE_Read d; drv_GetLibraryVersion := drv_GetLibraryVersion d;
     drv_SetEventNotification := drv_SetEventNotification d; drv_Write := drv_Write d;
     drv_SetDataCharacteristics := drv_SetDataCharacteristics d;
     drv_SetFlowControl := drv_SetFlowControl d; drv_SetClrDtr := drv_SetClrDtr d;
     drv_SetClrRts := drv_SetClrRts d; drv_GetModemStatus := drv_GetModemStatus d;
     drv_GetStatus := drv_GetStatus d; drv_GetQueueStatus := drv_GetQueueStatus d;
     drv_Read := drv_Read d |}.

(** An opened object, with the all-accepting driver. *)
Definition world_open : World := snd (open (drv_with 1 0 0 []) ReadWrite world_init).

(** ** Modem line signals ([FT232::pinoutSignals]) *)

(** [PinoutSignal] values. *)
Definition NoSignal : Z := 0.
Definition ReceivedDataSignal : Z := 2.
Definition DataSetReadySignal : Z := 16.
Definition RingIndicatorSignal : Z := 32.
Definition ClearToSendSignal : Z := 128.

(** The signal half of the status word, as classified by [pinoutSignals]. *)
Definition pinout_of (modemStatus : Z) : Z :=
  let r := NoSignal in
  let r := if negb (Z.land modemStatus 128 =? 0) then Z.lor r ReceivedDataSignal else r in
  let r := if negb (Z.land modemStatus 64 =? 0) then Z.lor r RingIndicatorSignal else r in
  let r := if negb (Z.land modemStatus 32 =? 0) then Z.lor r DataSetReadySignal else r in
  let r := if negb (Z.land modemStatus 16 =? 0) then Z.lor r ClearToSendSignal else r in
  r.

(** [FT232::pinoutSignals] *)
Definition pinoutSignals (d : Driver) : M Z :=
  s <- get;;
  if negb (isOpen s) then ret NoSignal else
  log MutexLock;;;
  log Call_GetModemStatus;;;
  let (r, modemStatus) := drv_GetModemStatus d in
  log MutexUnlock;;;
  if negb (r =? FT_OK) then
    setErrorString "an error occured while reading the modem status";;; ret NoSignal
  else ret (pinout_of modemStatus).

(** ** Device listing ([FT232Info::availablePorts]) *)

Record FT232Info := mkFT232Info {
  descr : string;
  manuf : string;
  serialN : string;
  vid : Z;
  pid : Z
}.

(** The fields of [FT_PROGRAM_DATA] that [availablePorts] reads. *)
Record EEData := mkEEData {
  ee_Manufacturer : string;
  ee_Description : string;
  ee_SerialNumber : string;
  ee_VendorId : Z;
  ee_ProductId : Z
}.

Definition info_of (e : EEData) : FT232Info :=
  {| descr := ee_Description e; manuf := ee_Manufacturer e; serialN := ee_SerialNumber e;
     vid := ee_VendorId e; pid := ee_ProductId e |}.

(** An EEPROM image as the FT232R of [drv_with] reports it. *)
Definition ee_sample : EEData :=
  mkEEData "FTDI"%string "FT232R USB UART"%string "A1B2"%string FTDI_VID FTDI_PID.

(** The loop over the device info list; [ee i] is the driver's answer to
    [FT_EE_Read] on the handle opened for device [i], and [Call_Close] here
    is the [FT_Close(ft)] of that local handle. A failed [FT_Open] or
    [FT_EE_Read] returns the list built so far. *)
Fixpoint ports_loop (d : Driver) (ee : nat -> FT_STATUS * EEData) (key : Z)
  (ids : list Z) (i : nat) (lst : list FT232Info) : M (list FT232Info) :=
  match ids with
  | [] => ret lst
  | id :: ids' =>
    if id =? key then
      log (Call_Open i);;;
      if negb (drv_Open d i =? FT_OK) then ret lst else
      log Call_EE_Read;;;
      let (r, e) := ee i in
      if negb (r =? FT_OK) then ret lst else
      log Call_Close;;;
      ports_loop d ee key ids' (S i) (lst ++ [info_of e])
    else ports_loop d ee key ids' (S i) lst
  end.

(** [FT232Info::availablePorts] *)
Definition availablePorts (d : Driver) (ee : nat -> FT_STATUS * EEData) (VID PID : Z)
  : M (list FT232Info) :=
  log Call_CreateDeviceInfoList;;;
  if negb (drv_CreateDeviceInfoList d =? FT_OK) then ret [] else
  log Call_GetDeviceInfoList;;;
  let (r, ids) := drv_GetDeviceInfoList d in
  if negb (r =? FT_OK) then ret [] else
  ports_loop d ee (to_uint32 (VID * 65536 + PID)) ids 0 [].

(** The indices of the nodes whose ID matches [key], from index [i] on. *)
Fixpoint matching (key : Z) (ids : list Z) (i : nat) : list nat :=
  match ids with
  | [] => []
  | id :: ids' => if id =? key then i :: matching key ids' (S i) else matching key ids' (S i)
  end.

(** ** Calls on one object in any order *)

Inductive Op :=
| OpEvent (d : Driver)
| OpRead (k : nat)
| OpWrite (d : Driver) (data : list Byte.byte)
| OpOpen (d : Driver) (mode : Z)
| OpClose
| OpSetBaudRate (d : Driver) (b : Z)
| OpSetLineProperty (d : Driver) (l : LineProperty)
| OpSetFlowControl (d : Driver) (f : FlowControl)
| OpSetDataTerminalReady (d : Driver) (b : bool)
| OpSetRequestToSend (d : Driver) (b : bool)
| OpPinoutSignals (d : Driver).

Definition run_op (o : Op) : M unit :=
  match o with
  | OpEvent d => on_FTDIevent d
  | OpRead k => readData k;;; ret tt
  | OpWrite d data => writeData d data;;; ret tt
  | OpOpen d mode => open d mode;;; ret tt
  | OpClose => close
  | OpSetBaudRate d b => setBaudRate d b;;; ret tt
  | OpSetLineProperty d l => setLineProperty d l;;; ret tt
  | OpSetFlowControl d f => setFlowControl d f;;; ret tt
  | OpSetDataTerminalReady d b => setDataTerminalReady d b;;; ret tt
  | OpSetRequestToSend d b => setRequestToSend d b;;; ret tt
  | OpPinoutSignals d => pinoutSignals d;;; ret tt
  end.

Fixpoint run_ops (os : list Op) : M unit :=
  match os with
  | [] => ret tt
  | o :: os' => run_op o;;; run_ops os'
  end.

(** The semaphore count equals the number of buffered bytes. *)
Definition sem_inv (s : FT232) : Prop := sem s = List.length (FTDIreadBuffer s).

(** A run that leaves the receive buffer and the semaphore alone. *)
Definition keeps_buffer {A} (m : M A) : Prop :=
  forall w, FTDIreadBuffer (dev (snd (m w))) = FTDIreadBuffer (dev w) /\
            sem (dev (snd (m w))) = sem (dev w).

(** The driver calls made for one listed device whose EEPROM read succeeds. *)
Definition port_events (i : nat) : list Event := [Call_Open i; Call_EE_Read; Call_Close].

(** ** Receive path: drains and reads *)

(** A drain event whose driver reports queued bytes and a successful read. *)
Definition drain_ok (d : Driver) : Prop :=
  (0 < snd (drv_GetQueueStatus d))%nat /\
  fst (drv_Read d (snd (drv_GetQueueStatus d))) = FT_OK.

(** The chunk such a drain receives from the driver. *)
Definition drain_chunk (d : Driver) : list Byte.byte :=
  snd (drv_Read d (snd (drv_GetQueueStatus d))).

(** A sequence of [on_FTDIreceive] runs, each with its own driver answers. *)
Fixpoint drains (ds : list Driver) : M unit :=
  match ds with
  | [] => ret tt
  | d :: ds' => on_FTDIreceive d;;; drains ds'
  end.

(** The events a run appended to the trace. *)
Definition new_events (w w' : World) : list Event :=
  skipn (List.length (trace w)) (trace w').

Ltac run_m := unfold bind, ret, log, emit, modify, get, setErrorString; simpl.

Lemma on_FTDIreceive_ok_dev (d : Driver) (w : World) :
  drain_ok d ->
  dev (snd (on_FTDIreceive d w)) =
  set_buffer (FTDIreadBuffer (dev w) ++ drain_chunk d)
             (sem (dev w) + List.length (drain_chunk d)) (dev w).
Proof.
  unfold drain_ok, drain_chunk, on_FTDIreceive.
  destruct (drv_GetQueueStatus d) as [r0 q]; simpl.
  intros [Hq Hr].
  destruct (drv_Read d q) as [r buff]; simpl in *; subst r.
  apply Nat.ltb_lt in Hq. rewrite Hq. run_m. reflexivity.
Qed.

Lemma drains_dev (ds : list Driver) (w : World) :
  Forall drain_ok ds ->
  FTDIreadBuffer (dev (snd (drains ds w))) =
    FTDIreadBuffer (dev w) ++ List.concat (map drain_chunk ds) /\
  sem (dev (snd (drains ds w))) =
    (sem (dev w) + List.length (List.concat (map drain_chunk ds)))%nat.
Proof.
  revert w. induction ds as [|d ds IH]; intros w Hall.
  - simpl. rewrite app_nil_r. split; [reflexivity | lia].
  - inversion Hall as [|? ? Hd Hds]; subst.
    simpl. unfold bind.
    pose proof (on_FTDIreceive_ok_dev d w Hd) as Hw.
    destruct (on_FTDIreceive d w) as [[] w'] eqn:E. simpl in Hw.
    destruct (IH w' Hds) as [Hb Hs].
    rewrite Hb, Hs, Hw. simpl.
    rewrite app_assoc, length_app. split; [reflexivity | lia].
Qed.

(** A read asking for at least the whole buffer, with the semaphore holding
    at least that many units, copies out the whole buffer and empties it. *)
Lemma readData_whole (k : nat) (w : World) :
  (List.length (FTDIreadBuffer (dev w)) <= k)%nat ->
  (List.length (FTDIreadBuffer (dev w)) <= sem (dev w))%nat ->
  fst (readData k w) = (List.length (FTDIreadBuffer (dev w)), FTDIreadBuffer (dev w)) /\
  FTDIreadBuffer (dev (snd (readData k w))) = [].
Proof.
  intros Hk Hs. unfold readData, tryAcquire. run_m.
  rewrite Nat.min_r by exact Hk.
  destruct (Nat.eqb_spec (List.length (FTDIreadBuffer (dev w))) 0) as [H0 | H0].
  - apply length_zero_iff_nil in H0. simpl. rewrite H0. split; reflexivity.
  - apply Nat.leb_le in Hs. rewrite Hs. simpl.
    rewrite firstn_all, skipn_all. split; reflexivity.
Qed.

(** ** Bits of the modem status word *)

Lemma land_pow2 (a n : Z) :
  0 <= n -> Z.land a (2 ^ n) = if Z.testbit a n then 2 ^ n else 0.
Proof.
  intros Hn. apply Z.bits_inj'. intros m Hm.
  rewrite Z.land_spec, Z.pow2_bits_eqb by exact Hn.
  destruct (Z.eqb_spec n m) as [<- | Hnm].
  - destruct (Z.testbit a n); simpl;
      [rewrite Z.pow2_bits_eqb, Z.eqb_refl by exact Hn; reflexivity
      | rewrite Z.bits_0; reflexivity].
  - rewrite andb_false_r.
    destruct (Z.testbit a n); [| rewrite Z.bits_0; reflexivity].
    rewrite Z.pow2_bits_eqb by exact Hn. apply Z.eqb_neq in Hnm. now rewrite Hnm.
Qed.

Lemma land_pow2_eqb0 (a n : Z) :
  0 <= n -> (Z.land a (2 ^ n) =? 0) = negb (Z.testbit a n).
Proof.
  intros Hn. rewrite land_pow2 by exact Hn.
  destruct (Z.testbit a n); [| reflexivity].
  simpl. apply Z.eqb_neq. pose proof (Z.pow_pos_nonneg 2 n). lia.
Qed.

(** The bits of [serious_mask]: 9, 10, 11 and 15. *)
Lemma serious_mask_clear_bit (ms i : Z) :
  Z.land ms serious_mask = 0 -> Z.testbit serious_mask i = true ->
  Z.testbit ms i = false.
Proof.
  intros H Hi.
  assert (Hb : Z.testbit (Z.land ms serious_mask) i = false)
    by (rewrite H; apply Z.bits_0).
  rewrite Z.land_spec, Hi, andb_true_r in Hb. exact Hb.
Qed.

Lemma modem_errors_break_only (ms : Z) :
  Z.land ms serious_mask = 0 -> Z.testbit ms 12 = true ->
  modem_errors ms = BreakConditionError.
Proof.
  intros H H12. unfold modem_errors.
  change 32768 with (2 ^ 15). change 4096 with (2 ^ 12).
  change 2048 with (2 ^ 11). change 1024 with (2 ^ 10). change 512 with (2 ^ 9).
  rewrite !land_pow2_eqb0 by lia.
  rewrite H12, !(serious_mask_clear_bit ms) by (exact H || reflexivity).
  reflexivity.
Qed.

(** ** Open applies the stored baud rate *)

Lemma open_baud_calls (d : Driver) (mode : Z) (w : World) :
  (forall x, In (Call_SetBaudRate x) (new_events w (snd (open d mode w))) ->
             x = FTDIbaudRate (dev w)) /\
  (fst (open d mode w) = true ->
   In (Call_SetBaudRate (FTDIbaudRate (dev w))) (new_events w (snd (open d mode w)))).
Proof.
  unfold open, new_events.
  destruct (drv_GetDeviceInfoList d) as [r1 ids].
  destruct (drv_EE_Read d) as [r2 [[descr serial] manuf]].
  destruct (drv_GetLibraryVersion d) as [r3 lv].
  unfold bind, ret, log, emit, modify, get, setErrorString, close. simpl.
  repeat match goal with
         | |- context [if ?c then _ else _] => destruct c
         | |- context [match find_device ?i ?l ?n with _ => _ end] =>
             destruct (find_device i l n)
         end;
    simpl; rewrite <- ?app_assoc, skipn_app, Nat.sub_diag, skipn_all; simpl;
    split; intros; intuition congruence.
Qed.

(** ** Claims *)

(** C1 (FIFO): after drains that each append a chunk (queued bytes reported
    and the read succeeds) to an empty receive buffer, a read asking for at
    least the total size returns the concatenation of the chunks in order. *)
Theorem fifo_drains_then_read (ds : list Driver) (w : World) (k : nat) :
  Forall drain_ok ds ->
  FTDIreadBuffer (dev w) = [] ->
  (List.length (List.concat (map drain_chunk ds)) <= k)%nat ->
  fst ((drains ds;;; readData k) w) =
    (List.length (List.concat (map drain_chunk ds)), List.concat (map drain_chunk ds)).
Proof.
  intros Hall Hempty Hk. unfold bind.
  destruct (drains_dev ds w Hall) as [Hb Hs].
  destruct (drains ds w) as [[] w'] eqn:E. simpl in Hb, Hs.
  rewrite Hempty in Hb. simpl in Hb.
  destruct (readData_whole k w') as [Hr _].
  - rewrite Hb. exact Hk.
  - rewrite Hb, Hs. lia.
  - rewrite Hr, Hb. reflexivity.
Qed.

Lemma fifo_drains_then_read_witness :
  Forall drain_ok [drv_with 1 0 2 [Byte.x41; Byte.x42]; drv_with 1 0 1 [Byte.x43]] /\
  FTDIreadBuffer (dev world_init) = [] /\
  fst ((drains [drv_with 1 0 2 [Byte.x41; Byte.x42]; drv_with 1 0 1 [Byte.x43]];;;
        readData 3) world_init) = (3%nat, [Byte.x41; Byte.x42; Byte.x43]).
Proof.
  assert (H : Forall drain_ok
                [drv_with 1 0 2 [Byte.x41; Byte.x42]; drv_with 1 0 1 [Byte.x43]])
    by (repeat constructor; simpl; lia).
  split; [exact H | split; [reflexivity |]].
  exact (fifo_drains_then_read _ world_init 3 H eq_refl (le_n 3)).
Defined.

(** C2: [readData 0], and [readData k] on an empty buffer, return 0 at once
    and leave the object (buffer and semaphore) and the trace unchanged. *)
Theorem readData_zero_nonblocking (k : nat) (w : World) :
  (k = 0%nat \/ FTDIreadBuffer (dev w) = []) ->
  readData k w = ((0%nat, []), w).
Proof.
  intros [-> | H]; unfold readData; run_m.
  - reflexivity.
  - rewrite H, Nat.min_0_r. reflexivity.
Qed.

Lemma readData_zero_nonblocking_witness :
  (FTDIreadBuffer (dev world_init) = [] /\ readData 5 world_init = ((0%nat, []), world_init)) /\
  readData 0 (snd (on_FTDIreceive (drv_with 1 0 1 [Byte.x41]) world_init)) =
    ((0%nat, []), snd (on_FTDIreceive (drv_with 1 0 1 [Byte.x41]) world_init)).
Proof.
  split.
  - split; [reflexivity |].
    exact (readData_zero_nonblocking 5 world_init (or_intror eq_refl)).
  - exact (readData_zero_nonblocking 0 _ (or_introl eq_refl)).
Defined.

(** C3: a status word with a serious error bit (overrun, parity, framing,
    FIFO) makes the modem handler purge both hardware buffers and return with
    the object, hence the error flags, unchanged and without [errorOccurred]. *)
Theorem modem_serious_purges (d : Driver) (w : World) (ms : Z) :
  drv_GetModemStatus d = (FT_OK, ms) ->
  Z.land ms serious_mask <> 0 ->
  dev (snd (on_FTDImodemError d w)) = dev w /\
  error (dev (snd (on_FTDImodemError d w))) = error (dev w) /\
  trace (snd (on_FTDImodemError d w)) =
    trace w ++ [MutexLock; Call_GetModemStatus; MutexUnlock;
                MutexLock; Call_Purge (Z.lor FT_PURGE_RX FT_PURGE_TX); MutexUnlock].
Proof.
  intros Hd Hms. unfold on_FTDImodemError. rewrite Hd. run_m.
  apply Z.eqb_neq in Hms. rewrite Hms. simpl.
  split; [reflexivity | split; [reflexivity |]].
  rewrite <- !app_assoc. reflexivity.
Qed.

Lemma modem_serious_purges_witness :
  drv_GetModemStatus (drv_with 2 32768 0 []) = (FT_OK, 32768) /\
  Z.land 32768 serious_mask <> 0 /\
  error (dev (snd (on_FTDImodemError (drv_with 2 32768 0 []) world_init))) = NoError.
Proof.
  assert (H1 : drv_GetModemStatus (drv_with 2 32768 0 []) = (FT_OK, 32768)) by reflexivity.
  assert (H2 : Z.land 32768 serious_mask <> 0) by (vm_compute; discriminate).
  split; [exact H1 | split; [exact H2 |]].
  destruct (modem_serious_purges _ world_init 32768 H1 H2) as [_ [He _]].
  rewrite He. reflexivity.
Defined.

(** C4: a status word with no serious bit and the break-interrupt bit (bit 12)
    set makes the error flags exactly [BreakConditionError], with no purge. *)
Theorem modem_break_only (d : Driver) (w : World) (ms : Z) :
  drv_GetModemStatus d = (FT_OK, ms) ->
  Z.land ms serious_mask = 0 ->
  Z.testbit ms 12 = true ->
  error (dev (snd (on_FTDImodemError d w))) = BreakConditionError /\
  Z.land (error (dev (snd (on_FTDImodemError d w)))) BreakConditionError <> 0 /\
  trace (snd (on_FTDImodemError d w)) =
    trace w ++ [MutexLock; Call_GetModemStatus; MutexUnlock].
Proof.
  intros Hd Hms H12. unfold on_FTDImodemError. rewrite Hd. run_m.
  rewrite Hms. simpl. unfold error. simpl.
  rewrite (modem_errors_break_only ms Hms H12).
  split; [reflexivity | split; [discriminate |]].
  rewrite <- !app_assoc. reflexivity.
Qed.

Lemma modem_break_only_witness :
  drv_GetModemStatus (drv_with 2 4096 0 []) = (FT_OK, 4096) /\
  Z.land 4096 serious_mask = 0 /\ Z.testbit 4096 12 = true /\
  error (dev (snd (on_FTDImodemError (drv_with 2 4096 0 []) world_init))) = BreakConditionError.
Proof.
  assert (H1 : drv_GetModemStatus (drv_with 2 4096 0 []) = (FT_OK, 4096)) by reflexivity.
  assert (H2 : Z.land 4096 serious_mask = 0) by reflexivity.
  assert (H3 : Z.testbit 4096 12 = true) by reflexivity.
  split; [exact H1 | split; [exact H2 | split; [exact H3 |]]].
  exact (proj1 (modem_break_only _ world_init 4096 H1 H2 H3)).
Defined.

(** C5 (code defect): when [FT_Write] succeeds, [writeData] returns the
    status code [ret] ([FT_OK], i.e. 0) instead of [_bytesWritten]; writing
    the two bytes "AB" with the driver reporting 2 bytes written returns 0.
    A failing write returns -1. *)
Theorem writeData_returns_status_not_count :
  drv_Write (drv_with 1 0 0 []) [Byte.x41; Byte.x42] = (FT_OK, 2) /\
  fst (writeData (drv_with 1 0 0 []) [Byte.x41; Byte.x42] world_open) = 0 /\
  fst (writeData (drv_with 1 0 0 []) [Byte.x41; Byte.x42] world_open) <> 2.
Proof.
  split; [reflexivity |]. unfold writeData. run_m.
  split; [reflexivity | discriminate].
Qed.

(** C6 (code defect): on a closed object, [setLineProperty] and
    [setFlowControl] have no [isOpen()] guard: they call
    [FT_SetDataCharacteristics] / [FT_SetFlowControl] and, with a driver that
    answers [FT_OK], return true; [setDataTerminalReady] and
    [setRequestToSend] return false with no driver call. *)
Theorem setters_closed_call_driver :
  isOpen (dev world_init) = false /\
  setLineProperty (drv_with 1 0 0 []) SERIAL_8E1 world_init =
    (true, mkWorld (set_config 115200 SERIAL_8E1 NoFlowControl false false ft_init)
             [MutexLock; Call_SetDataCharacteristics FT_BITS_8 FT_STOP_BITS_1 FT_PARITY_EVEN;
              MutexUnlock; Emit (linePropertyChanged SERIAL_8E1)]) /\
  setFlowControl (drv_with 1 0 0 []) HardwareControl world_init =
    (true, mkWorld (set_config 115200 SERIAL_8N1 HardwareControl false false ft_init)
             [MutexLock; Call_SetFlowControl FT_FLOW_RTS_CTS 17 19;
              MutexUnlock; Emit (flowControlChanged HardwareControl)]) /\
  setDataTerminalReady (drv_with 1 0 0 []) true world_init = (false, world_init) /\
  setRequestToSend (drv_with 1 0 0 []) true world_init = (false, world_init).
Proof. repeat split. Qed.

(** C7: on a closed object, [setBaudRate b] returns true and stores [b] (as
    the [uint32_t] [FTDIbaudRate], read back as [b] by [baudRate()]); a
    later [open] passes exactly that value to [FT_SetBaudRate] and no other
    value, and a successful [open] did make that call. For [b >= 0] the
    value passed is [b] itself. *)
Theorem setBaudRate_closed_then_open (d d' : Driver) (b mode : Z) (w : World) :
  - 2 ^ 31 <= b < 2 ^ 31 ->
  isOpen (dev w) = false ->
  let w1 := snd (setBaudRate d b w) in
  fst (setBaudRate d b w) = true /\
  FTDIbaudRate (dev w1) = to_uint32 b /\
  baudRate (dev w1) = b /\
  (forall x, In (Call_SetBaudRate x) (new_events w1 (snd (open d' mode w1))) ->
             x = to_uint32 b) /\
  (fst (open d' mode w1) = true ->
   In (Call_SetBaudRate (to_uint32 b)) (new_events w1 (snd (open d' mode w1)))) /\
  (0 <= b -> to_uint32 b = b).
Proof.
  intros Hb Hc w1.
  assert (Hs : setBaudRate d b w =
               (true, mkWorld (set_config (to_uint32 b) (FTDIlineProperty (dev w))
                                 (FTDIflowControl (dev w)) (FTDIdtr (dev w))
                                 (FTDIrts (dev w)) (dev w)) (trace w))).
  { unfold setBaudRate. run_m.
    change (isOpen (set_config (to_uint32 b) (FTDIlineProperty (dev w)) (FTDIflowControl (dev w))
              (FTDIdtr (dev w)) (FTDIrts (dev w)) (dev w))) with (isOpen (dev w)).
    rewrite Hc. reflexivity. }
  assert (Hbr : FTDIbaudRate (dev w1) = to_uint32 b) by (unfold w1; rewrite Hs; reflexivity).
  destruct (open_baud_calls d' mode w1) as [H1 H2].
  rewrite Hbr in H1, H2.
  split; [rewrite Hs; reflexivity |].
  split; [exact Hbr |].
  split.
  - unfold baudRate, to_int32. rewrite Hbr. unfold to_uint32.
    rewrite Z.mod_mod by lia. cbv zeta.
    destruct (Z.leb_spec 0 b) as [Hp | Hn].
    + rewrite Z.mod_small by lia.
      match goal with |- context [Z.ltb ?x ?y] => destruct (Z.ltb_spec x y) end; lia.
    + rewrite <- (Z.mod_unique b (2 ^ 32) (-1) (b + 2 ^ 32)) by lia.
      match goal with |- context [Z.ltb ?x ?y] => destruct (Z.ltb_spec x y) end; lia.
  - split; [exact H1 | split; [exact H2 |]].
    intros H0. unfold to_uint32. apply Z.mod_small. lia.
Qed.

Lemma setBaudRate_closed_then_open_witness :
  - 2 ^ 31 <= 9600 < 2 ^ 31 /\ isOpen (dev world_init) = false /\
  fst (open (drv_with 1 0 0 []) ReadWrite (snd (setBaudRate (drv_with 1 0 0 []) 9600 world_init)))
    = true /\
  In (Call_SetBaudRate 9600)
     (new_events (snd (setBaudRate (drv_with 1 0 0 []) 9600 world_init))
        (snd (open (drv_with 1 0 0 []) ReadWrite
                (snd (setBaudRate (drv_with 1 0 0 []) 9600 world_init))))).
Proof.
  assert (Hb : - 2 ^ 31 <= 9600 < 2 ^ 31) by lia.
  assert (Hc : isOpen (dev world_init) = false) by reflexivity.
  assert (Ho : fst (open (drv_with 1 0 0 []) ReadWrite
                     (snd (setBaudRate (drv_with 1 0 0 []) 9600 world_init))) = true)
    by (vm_compute; reflexivity).
  split; [exact Hb | split; [exact Hc | split; [exact Ho |]]].
  destruct (setBaudRate_closed_then_open (drv_with 1 0 0 []) (drv_with 1 0 0 []) 9600
              ReadWrite world_init Hb Hc) as [_ [_ [_ [_ [H _]]]]].
  exact (H Ho).
Defined.

(** C8: when [FT_GetStatus] fails, [on_FTDIevent] sets the error flags to
    exactly [ReadError] (object open) or [NotOpenError] (object closed), emits
    [errorOccurred] and returns: no queue query, read or modem-status query
    follows, and the receive buffer and semaphore are untouched. *)
Theorem event_status_failure (d : Driver) (w : World) :
  fst (drv_GetStatus d) <> FT_OK ->
  errFlag (dev (snd (on_FTDIevent d w))) =
    (if isOpen (dev w) then ReadError else NotOpenError) /\
  trace (snd (on_FTDIevent d w)) =
    trace w ++ [MutexLock; Call_GetStatus; MutexUnlock; Emit errorOccurred] /\
  FTDIreadBuffer (dev (snd (on_FTDIevent d w))) = FTDIreadBuffer (dev w) /\
  sem (dev (snd (on_FTDIevent d w))) = sem (dev w).
Proof.
  unfold on_FTDIevent, fail_read.
  destruct (drv_GetStatus d) as [r [[rx tx] ev]]. simpl. intros Hr.
  apply Z.eqb_neq in Hr. run_m. rewrite Hr. simpl.
  change (isOpen (set_errorString "an error occured while reading the device status" (dev w)))
    with (isOpen (dev w)).
  split; [destruct (isOpen (dev w)); reflexivity |].
  split; [rewrite <- !app_assoc; reflexivity | split; reflexivity].
Qed.

Lemma event_status_failure_witness :
  fst (drv_GetStatus (with_GetStatus (FT_IO_ERROR, (0, 0, 0)) (drv_with 1 0 0 []))) <> FT_OK /\
  errFlag (dev (snd (on_FTDIevent (with_GetStatus (FT_IO_ERROR, (0, 0, 0)) (drv_with 1 0 0 []))
                       world_open))) = ReadError.
Proof.
  assert (H : fst (drv_GetStatus (with_GetStatus (FT_IO_ERROR, (0, 0, 0)) (drv_with 1 0 0 [])))
              <> FT_OK) by discriminate.
  split; [exact H |].
  rewrite (proj1 (event_status_failure _ world_open H)). vm_compute. reflexivity.
Defined.

(** C9: [close] is idempotent on the object: a second [close] leaves every
    field (open mode, error flags, error string, buffer, semaphore,
    configuration) as the first left it; it only repeats the guarded
    [FT_Close] call, whose result is ignored, and the [aboutToClose] signal. *)
Theorem close_idempotent (w : World) :
  dev (snd (close (snd (close w)))) = dev (snd (close w)) /\
  isOpen (dev (snd (close w))) = false /\
  errFlag (dev (snd (close w))) = errFlag (dev w) /\
  errorString (dev (snd (close w))) = errorString (dev w) /\
  trace (snd (close (snd (close w)))) =
    trace (snd (close w)) ++ [MutexLock; Call_Close; MutexUnlock; Emit aboutToClose].
Proof.
  unfold close. run_m.
  repeat split. rewrite <- !app_assoc. reflexivity.
Qed.

(** C10: on an open object, when [FT_SetBaudRate] fails, [setBaudRate b]
    returns false after calling [close()] (the object is then closed), and the
    record already holds [b]: the failed driver call was made with it. *)
Theorem setBaudRate_open_failure (d : Driver) (b : Z) (w : World) :
  isOpen (dev w) = true ->
  drv_SetBaudRate d (to_uint32 b) <> FT_OK ->
  fst (setBaudRate d b w) = false /\
  isOpen (dev (snd (setBaudRate d b w))) = false /\
  FTDIbaudRate (dev (snd (setBaudRate d b w))) = to_uint32 b /\
  trace (snd (setBaudRate d b w)) =
    trace w ++ [MutexLock; Call_SetBaudRate (to_uint32 b); MutexUnlock;
                MutexLock; Call_Close; MutexUnlock; Emit aboutToClose].
Proof.
  intros Ho Hf. apply Z.eqb_neq in Hf.
  unfold setBaudRate, close. run_m.
  change (isOpen (set_config (to_uint32 b) (FTDIlineProperty (dev w)) (FTDIflowControl (dev w))
            (FTDIdtr (dev w)) (FTDIrts (dev w)) (dev w))) with (isOpen (dev w)).
  rewrite Ho. simpl. rewrite Hf. simpl.
  repeat split. rewrite <- !app_assoc. reflexivity.
Qed.

Lemma setBaudRate_open_failure_witness :
  isOpen (dev world_open) = true /\
  drv_SetBaudRate (with_SetBaudRate (fun _ => FT_INVALID_HANDLE) (drv_with 1 0 0 []))
    (to_uint32 9600) <> FT_OK /\
  fst (setBaudRate (with_SetBaudRate (fun _ => FT_INVALID_HANDLE) (drv_with 1 0 0 []))
         9600 world_open) = false.
Proof.
  assert (H1 : isOpen (dev world_open) = true) by (vm_compute; reflexivity).
  assert (H2 : drv_SetBaudRate (with_SetBaudRate (fun _ => FT_INVALID_HANDLE) (drv_with 1 0 0 []))
                 (to_uint32 9600) <> FT_OK) by discriminate.
  split; [exact H1 | split; [exact H2 |]].
  exact (proj1 (setBaudRate_open_failure _ 9600 world_open H1 H2)).
Defined.

(** ** Extra properties *)

(** Case analysis over every test and driver answer of a method. *)
Ltac case_m :=
  repeat (simpl; match goal with
  | |- context [match ?x with _ => _ end] => destruct x eqn:?
  end); simpl.

Lemma close_keeps_buffer : keeps_buffer close.
Proof. intros w. unfold close. run_m. split; reflexivity. Qed.

Lemma open_keeps_buffer (d : Driver) (mode : Z) : keeps_buffer (open d mode).
Proof.
  intros w. unfold open.
  destruct (drv_GetDeviceInfoList d) as [r1 ids].
  destruct (drv_EE_Read d) as [r2 [[descr serial] manuf]].
  destruct (drv_GetLibraryVersion d) as [r3 lv].
  unfold bind, ret, log, emit, modify, get, setErrorString, close.
  case_m; split; reflexivity.
Qed.

Ltac keeps_tac :=
  intros w; unfold bind, ret, log, emit, modify, get, setErrorString, close, fail_read;
  case_m; split; reflexivity.

Lemma writeData_keeps_buffer (d : Driver) (data : list Byte.byte) :
  keeps_buffer (writeData d data).
Proof. unfold writeData. keeps_tac. Qed.

Lemma setBaudRate_keeps_buffer (d : Driver) (b : Z) : keeps_buffer (setBaudRate d b).
Proof. unfold setBaudRate. keeps_tac. Qed.

Lemma setLineProperty_keeps_buffer (d : Driver) (l : LineProperty) :
  keeps_buffer (setLineProperty d l).
Proof. unfold setLineProperty. keeps_tac. Qed.

Lemma setFlowControl_keeps_buffer (d : Driver) (f : FlowControl) :
  keeps_buffer (setFlowControl d f).
Proof. unfold setFlowControl. keeps_tac. Qed.

Lemma setDataTerminalReady_keeps_buffer (d : Driver) (b : bool) :
  keeps_buffer (setDataTerminalReady d b).
Proof. unfold setDataTerminalReady. keeps_tac. Qed.

Lemma setRequestToSend_keeps_buffer (d : Driver) (b : bool) :
  keeps_buffer (setRequestToSend d b).
Proof. unfold setRequestToSend. keeps_tac. Qed.

Lemma pinoutSignals_keeps_buffer (d : Driver) : keeps_buffer (pinoutSignals d).
Proof. unfold pinoutSignals. keeps_tac. Qed.

Lemma on_FTDImodemError_keeps_buffer (d : Driver) : keeps_buffer (on_FTDImodemError d).
Proof. unfold on_FTDImodemError. keeps_tac. Qed.

Lemma keeps_buffer_then {A B} (m : M A) (k : M B) :
  keeps_buffer m -> keeps_buffer k -> keeps_buffer (m;;; k).
Proof.
  intros Hm Hk w. unfold bind. destruct (m w) as [a w'] eqn:E.
  destruct (Hm w) as [H1 H2]. rewrite E in H1, H2. simpl in H1, H2.
  destruct (Hk w') as [H3 H4]. rewrite H3, H4, H1, H2. split; reflexivity.
Qed.

Lemma ret_keeps_buffer {A} (a : A) : keeps_buffer (ret a).
Proof. intros w. split; reflexivity. Qed.

(** [on_FTDIreceive] keeps the semaphore equal to the buffer length. *)
Lemma on_FTDIreceive_sem_inv (d : Driver) (w : World) :
  sem_inv (dev w) -> sem_inv (dev (snd (on_FTDIreceive d w))).
Proof.
  unfold sem_inv, on_FTDIreceive, fail_read. intros H.
  destruct (drv_GetQueueStatus d) as [r0 q]. run_m.
  destruct (0 <? q)%nat eqn:Eq; simpl.
  - destruct (drv_Read d q) as [r buff]. simpl.
    destruct (r =? FT_IO_ERROR); simpl; [exact H |].
    destruct (r =? FT_OK); simpl; [| exact H].
    rewrite length_app, H. reflexivity.
  - exact H.
Qed.

Lemma on_FTDIevent_sem_inv (d : Driver) (w : World) :
  sem_inv (dev w) -> sem_inv (dev (snd (on_FTDIevent d w))).
Proof.
  intros H. unfold on_FTDIevent, fail_read.
  destruct (drv_GetStatus d) as [r [[rx tx] ev]]. run_m.
  destruct (r =? FT_OK); simpl; [| exact H].
  destruct (Z.land ev FT_EVENT_MODEM_STATUS =? 0); simpl.
  - destruct (Z.land ev FT_EVENT_RXCHAR =? 0); simpl; [exact H |].
    apply on_FTDIreceive_sem_inv. exact H.
  - destruct (on_FTDImodemError_keeps_buffer d
                {| dev := dev w; trace := ((trace w ++ [MutexLock]) ++ [Call_GetStatus])
                                              ++ [MutexUnlock] |}) as [H1 H2].
    unfold sem_inv. rewrite H1, H2. exact H.
Qed.

Lemma readData_sem_inv (k : nat) (w : World) :
  sem_inv (dev w) -> sem_inv (dev (snd (readData k w))).
Proof.
  unfold sem_inv, readData, tryAcquire. intros H. run_m.
  destruct (Nat.min k (List.length (FTDIreadBuffer (dev w))) =? 0)%nat eqn:E0;
    simpl; [exact H |].
  destruct (Nat.min k (List.length (FTDIreadBuffer (dev w))) <=? sem (dev w))%nat eqn:E1;
    simpl; [| exact H].
  rewrite length_skipn, H. reflexivity.
Qed.

Lemma run_op_sem_inv (o : Op) (w : World) :
  sem_inv (dev w) -> sem_inv (dev (snd (run_op o w))).
Proof.
  intros H.
  assert (K : forall {A} (m : M A), keeps_buffer m ->
              sem_inv (dev (snd ((m;;; ret tt) w)))).
  { intros A m Hm. destruct (keeps_buffer_then m (ret tt) Hm (ret_keeps_buffer tt) w)
      as [H1 H2]. unfold sem_inv. rewrite H1, H2. exact H. }
  destruct o; cbn [run_op].
  - apply on_FTDIevent_sem_inv. exact H.
  - unfold bind. destruct (readData k w) as [a w'] eqn:E.
    pose proof (readData_sem_inv k w H) as H'. rewrite E in H'. exact H'.
  - apply K, writeData_keeps_buffer.
  - apply K, open_keeps_buffer.
  - destruct (close_keeps_buffer w) as [H1 H2]. unfold sem_inv. rewrite H1, H2. exact H.
  - apply K, setBaudRate_keeps_buffer.
  - apply K, setLineProperty_keeps_buffer.
  - apply K, setFlowControl_keeps_buffer.
  - apply K, setDataTerminalReady_keeps_buffer.
  - apply K, setRequestToSend_keeps_buffer.
  - apply K, pinoutSignals_keeps_buffer.
Qed.

(** X1: over any sequence of calls on the object (events, reads, writes,
    open, close, setters, pinout queries), the semaphore count stays equal to
    the number of buffered bytes. *)
Theorem run_ops_sem_inv (os : list Op) (w : World) :
  sem_inv (dev w) -> sem_inv (dev (snd (run_ops os w))).
Proof.
  revert w. induction os as [|o os IH]; intros w H; simpl; [exact H |].
  unfold bind. destruct (run_op o w) as [[] w'] eqn:E.
  apply IH. pose proof (run_op_sem_inv o w H) as H'. rewrite E in H'. exact H'.
Qed.

Lemma run_ops_sem_inv_witness :
  sem_inv (dev world_init) /\
  sem_inv (dev (snd (run_ops [OpOpen (drv_with 1 0 0 []) ReadWrite;
                              OpEvent (drv_with 1 0 3 [Byte.x41; Byte.x42; Byte.x43]);
                              OpRead 2; OpClose] world_init))).
Proof.
  assert (H : sem_inv (dev world_init)) by reflexivity.
  split; [exact H |]. apply run_ops_sem_inv. exact H.
Defined.



(** X3: a drain whose [FT_Read] fails (queued bytes reported, status not
    [FT_OK], [FT_IO_ERROR] included) appends nothing and leaves the semaphore
    alone; it sets the error flags to [ReadError] (open) or [NotOpenError]
    (closed) and emits [errorOccurred], not [readyRead]. *)
Theorem on_FTDIreceive_read_failure (d : Driver) (w : World) (r0 : FT_STATUS) (q : nat) :
  drv_GetQueueStatus d = (r0, q) ->
  (0 < q)%nat ->
  fst (drv_Read d q) <> FT_OK ->
  FTDIreadBuffer (dev (snd (on_FTDIreceive d w))) = FTDIreadBuffer (dev w) /\
  sem (dev (snd (on_FTDIreceive d w))) = sem (dev w) /\
  errFlag (dev (snd (on_FTDIreceive d w))) =
    (if isOpen (dev w) then ReadError else NotOpenError) /\
  trace (snd (on_FTDIreceive d w)) =
    trace w ++ [MutexLock; Call_GetQueueStatus; Call_Read q; MutexUnlock; Emit errorOccurred].
Proof.
  intros Hq Hpos Hr. unfold on_FTDIreceive, fail_read. rewrite Hq. run_m.
  apply Nat.ltb_lt in Hpos. rewrite Hpos. simpl.
  destruct (drv_Read d q) as [r buff]. simpl in Hr |- *.
  apply Z.eqb_neq in Hr. rewrite Hr.
  destruct (r =? FT_IO_ERROR); simpl;
  (change (isOpen (set_errorString "an IO error occured" (dev w))) with (isOpen (dev w)) ||
   change (isOpen (set_errorString "an error occured while reading bytes from the device" (dev w)))
     with (isOpen (dev w)));
  (split; [reflexivity | split; [reflexivity | split;
     [destruct (isOpen (dev w)); reflexivity | rewrite <- !app_assoc; reflexivity]]]).
Qed.

Lemma on_FTDIreceive_read_failure_witness :
  errFlag (dev (snd (on_FTDIreceive
     (mkDriver FT_OK (FT_OK, []) (fun _ => FT_OK) (fun _ => FT_OK) FT_OK FT_OK
        (FT_OK, (EmptyString, EmptyString, EmptyString)) (FT_OK, 0) FT_OK
        (fun _ => (FT_OK, 0)) FT_OK FT_OK FT_OK FT_OK (FT_OK, 0) (FT_OK, (0, 0, 0))
        (FT_OK, 4%nat) (fun _ => (FT_IO_ERROR, [])))
     world_open))) = ReadError.
Proof.
  rewrite (proj1 (proj2 (proj2 (on_FTDIreceive_read_failure
     (mkDriver FT_OK (FT_OK, []) (fun _ => FT_OK) (fun _ => FT_OK) FT_OK FT_OK
        (FT_OK, (EmptyString, EmptyString, EmptyString)) (FT_OK, 0) FT_OK
        (fun _ => (FT_OK, 0)) FT_OK FT_OK FT_OK FT_OK (FT_OK, 0) (FT_OK, (0, 0, 0))
        (FT_OK, 4%nat) (fun _ => (FT_IO_ERROR, [])))
     world_open FT_OK 4 eq_refl ltac:(lia) ltac:(discriminate))))).
  vm_compute. reflexivity.
Defined.

(** X4: a drain that finds no queued byte issues no [FT_Read], changes
    nothing in the object and emits no signal. *)
Theorem on_FTDIreceive_empty_queue (d : Driver) (w : World) :
  snd (drv_GetQueueStatus d) = 0%nat ->
  dev (snd (on_FTDIreceive d w)) = dev w /\
  trace (snd (on_FTDIreceive d w)) = trace w ++ [MutexLock; Call_GetQueueStatus; MutexUnlock].
Proof.
  unfold on_FTDIreceive. destruct (drv_GetQueueStatus d) as [r0 q]. simpl. intros ->.
  run_m. split; [reflexivity | rewrite <- !app_assoc; reflexivity].
Qed.

Lemma on_FTDIreceive_empty_queue_witness :
  snd (drv_GetQueueStatus (drv_with 1 0 0 [Byte.x41])) = 0%nat /\
  dev (snd (on_FTDIreceive (drv_with 1 0 0 [Byte.x41]) world_open)) = dev world_open.
Proof.
  assert (H : snd (drv_GetQueueStatus (drv_with 1 0 0 [Byte.x41])) = 0%nat) by reflexivity.
  split; [exact H | exact (proj1 (on_FTDIreceive_empty_queue _ world_open H))].
Defined.

(** X5: a successful drain appends the bytes read at the back of the buffer,
    raises the semaphore by their number, and emits [readyRead] (the class's
    and [QIODevice]'s), after one [FT_Read] of the queued count. *)
Theorem on_FTDIreceive_success (d : Driver) (w : World) :
  drain_ok d ->
  FTDIreadBuffer (dev (snd (on_FTDIreceive d w))) = FTDIreadBuffer (dev w) ++ drain_chunk d /\
  sem (dev (snd (on_FTDIreceive d w))) = (sem (dev w) + List.length (drain_chunk d))%nat /\
  trace (snd (on_FTDIreceive d w)) =
    trace w ++ [MutexLock; Call_GetQueueStatus; Call_Read (snd (drv_GetQueueStatus d));
                MutexUnlock; Emit readyRead; Emit QIODevice_readyRead].
Proof.
  intros Hd. pose proof (on_FTDIreceive_ok_dev d w Hd) as Hdev.
  rewrite Hdev. split; [reflexivity | split; [reflexivity |]].
  unfold drain_ok, drain_chunk, on_FTDIreceive in *.
  destruct (drv_GetQueueStatus d) as [r0 q]; simpl in *.
  destruct Hd as [Hq Hr].
  destruct (drv_Read d q) as [r buff]; simpl in *; subst r.
  apply Nat.ltb_lt in Hq. run_m. rewrite Hq. simpl. rewrite <- !app_assoc. reflexivity.
Qed.

Lemma on_FTDIreceive_success_witness :
  drain_ok (drv_with 1 0 1 [Byte.x41]) /\
  FTDIreadBuffer (dev (snd (on_FTDIreceive (drv_with 1 0 1 [Byte.x41]) world_open))) =
    [Byte.x41].
Proof.
  assert (H : drain_ok (drv_with 1 0 1 [Byte.x41])) by (split; simpl; [lia | reflexivity]).
  split; [exact H | exact (proj1 (on_FTDIreceive_success _ world_open H))].
Defined.

(** X6: when the event word has the modem-status bit, [on_FTDIevent] runs
    only the modem handler, even if the receive-character bit is set too:
    the buffer is not drained on that event. *)
Theorem on_FTDIevent_modem_first (d : Driver) (w : World) (rx tx ev : Z) :
  drv_GetStatus d = (FT_OK, (rx, tx, ev)) ->
  Z.testbit ev 1 = true ->
  on_FTDIevent d w =
    on_FTDImodemError d (mkWorld (dev w) (trace w ++ [MutexLock; Call_GetStatus; MutexUnlock])) /\
  FTDIreadBuffer (dev (snd (on_FTDIevent d w))) = FTDIreadBuffer (dev w).
Proof.
  intros Hs Hb.
  assert (E : on_FTDIevent d w =
    on_FTDImodemError d (mkWorld (dev w) (trace w ++ [MutexLock; Call_GetStatus; MutexUnlock]))).
  { unfold on_FTDIevent. rewrite Hs. run_m.
    change FT_EVENT_MODEM_STATUS with (2 ^ 1). rewrite land_pow2_eqb0 by lia.
    rewrite Hb. simpl. rewrite <- !app_assoc. reflexivity. }
  split; [exact E |]. rewrite E.
  exact (proj1 (on_FTDImodemError_keeps_buffer d _)).
Qed.

Lemma on_FTDIevent_modem_first_witness :
  drv_GetStatus (drv_with 3 0 1 [Byte.x41]) = (FT_OK, (1, 0, 3)) /\ Z.testbit 3 1 = true /\
  FTDIreadBuffer (dev (snd (on_FTDIevent (drv_with 3 0 1 [Byte.x41]) world_open))) = [].
Proof.
  assert (H1 : drv_GetStatus (drv_with 3 0 1 [Byte.x41]) = (FT_OK, (1, 0, 3))) by reflexivity.
  assert (H2 : Z.testbit 3 1 = true) by reflexivity.
  split; [exact H1 | split; [exact H2 |]].
  rewrite (proj2 (on_FTDIevent_modem_first _ world_open 1 0 3 H1 H2)). reflexivity.
Defined.

(** X7: an event word with neither the receive-character nor the
    modem-status bit is ignored after the status query. *)
Theorem on_FTDIevent_unknown (d : Driver) (w : World) (rx tx ev : Z) :
  drv_GetStatus d = (FT_OK, (rx, tx, ev)) ->
  Z.testbit ev 0 = false -> Z.testbit ev 1 = false ->
  dev (snd (on_FTDIevent d w)) = dev w /\
  trace (snd (on_FTDIevent d w)) = trace w ++ [MutexLock; Call_GetStatus; MutexUnlock].
Proof.
  intros Hs H0 H1. unfold on_FTDIevent. rewrite Hs. run_m.
  change FT_EVENT_MODEM_STATUS with (2 ^ 1). change FT_EVENT_RXCHAR with (2 ^ 0).
  rewrite !land_pow2_eqb0 by lia. rewrite H0, H1. simpl.
  split; [reflexivity | rewrite <- !app_assoc; reflexivity].
Qed.

Lemma on_FTDIevent_unknown_witness :
  drv_GetStatus (drv_with 4 0 0 []) = (FT_OK, (0, 0, 4)) /\
  dev (snd (on_FTDIevent (drv_with 4 0 0 []) world_open)) = dev world_open.
Proof.
  assert (H : drv_GetStatus (drv_with 4 0 0 []) = (FT_OK, (0, 0, 4))) by reflexivity.
  split; [exact H |].
  exact (proj1 (on_FTDIevent_unknown _ world_open 0 0 4 H eq_refl eq_refl)).
Defined.

Lemma modem_errors_no_serious (ms : Z) :
  Z.land ms serious_mask = 0 ->
  modem_errors ms = if Z.testbit ms 12 then BreakConditionError else NoError.
Proof.
  intros H. unfold modem_errors.
  change 32768 with (2 ^ 15). change 4096 with (2 ^ 12).
  change 2048 with (2 ^ 11). change 1024 with (2 ^ 10). change 512 with (2 ^ 9).
  rewrite !land_pow2_eqb0 by lia.
  rewrite (serious_mask_clear_bit ms 15 H eq_refl), (serious_mask_clear_bit ms 11 H eq_refl),
    (serious_mask_clear_bit ms 10 H eq_refl), (serious_mask_clear_bit ms 9 H eq_refl).
  destruct (Z.testbit ms 12); reflexivity.
Qed.

(** X8: when the status word has no serious bit, the modem handler
    overwrites the error flags with [BreakConditionError] if bit 12 is set and
    with [NoError] otherwise; the overrun, parity, framing and FIFO flags are
    never set by it, and a previous flag is not kept. *)
Theorem on_FTDImodemError_flags (d : Driver) (w : World) (ms : Z) :
  drv_GetModemStatus d = (FT_OK, ms) ->
  Z.land ms serious_mask = 0 ->
  errFlag (dev (snd (on_FTDImodemError d w))) =
    (if Z.testbit ms 12 then BreakConditionError else NoError) /\
  trace (snd (on_FTDImodemError d w)) =
    trace w ++ [MutexLock; Call_GetModemStatus; MutexUnlock].
Proof.
  intros Hd Hms. unfold on_FTDImodemError. rewrite Hd. run_m.
  rewrite Hms. simpl. rewrite (modem_errors_no_serious ms Hms).
  split; [reflexivity | rewrite <- !app_assoc; reflexivity].
Qed.

Lemma on_FTDImodemError_flags_witness :
  drv_GetModemStatus (drv_with 2 16 0 []) = (FT_OK, 16) /\ Z.land 16 serious_mask = 0 /\
  errFlag (dev (snd (on_FTDImodemError (drv_with 2 16 0 [])
                       (mkWorld (set_errFlag ReadError (dev world_open)) [])))) = NoError.
Proof.
  assert (H1 : drv_GetModemStatus (drv_with 2 16 0 []) = (FT_OK, 16)) by reflexivity.
  assert (H2 : Z.land 16 serious_mask = 0) by reflexivity.
  split; [exact H1 | split; [exact H2 |]].
  exact (proj1 (on_FTDImodemError_flags _ _ 16 H1 H2)).
Defined.

(** X9: when [FT_GetModemStatus] fails, the modem handler sets the error
    flags to [ReadError] (open) or [NotOpenError] (closed), emits
    [errorOccurred] and purges nothing. *)
Theorem on_FTDImodemError_query_failure (d : Driver) (w : World) :
  fst (drv_GetModemStatus d) <> FT_OK ->
  errFlag (dev (snd (on_FTDImodemError d w))) =
    (if isOpen (dev w) then ReadError else NotOpenError) /\
  trace (snd (on_FTDImodemError d w)) =
    trace w ++ [MutexLock; Call_GetModemStatus; MutexUnlock; Emit errorOccurred].
Proof.
  unfold on_FTDImodemError, fail_read.
  destruct (drv_GetModemStatus d) as [r ms]. simpl. intros Hr.
  apply Z.eqb_neq in Hr. run_m. rewrite Hr. simpl.
  change (isOpen (set_errorString "an error occured while reading the device status" (dev w)))
    with (isOpen (dev w)).
  split; [destruct (isOpen (dev w)); reflexivity | rewrite <- !app_assoc; reflexivity].
Qed.

Lemma on_FTDImodemError_query_failure_witness :
  fst (drv_GetModemStatus (mkDriver FT_OK (FT_OK, []) (fun _ => FT_OK) (fun _ => FT_OK) FT_OK FT_OK
        (FT_OK, (EmptyString, EmptyString, EmptyString)) (FT_OK, 0) FT_OK
        (fun _ => (FT_OK, 0)) FT_OK FT_OK FT_OK FT_OK (FT_IO_ERROR, 0) (FT_OK, (0, 0, 2))
        (FT_OK, 0%nat) (fun _ => (FT_OK, [])))) <> FT_OK /\
  errFlag (dev (snd (on_FTDImodemError
     (mkDriver FT_OK (FT_OK, []) (fun _ => FT_OK) (fun _ => FT_OK) FT_OK FT_OK
        (FT_OK, (EmptyString, EmptyString, EmptyString)) (FT_OK, 0) FT_OK
        (fun _ => (FT_OK, 0)) FT_OK FT_OK FT_OK FT_OK (FT_IO_ERROR, 0) (FT_OK, (0, 0, 2))
        (FT_OK, 0%nat) (fun _ => (FT_OK, []))) world_init))) = NotOpenError.
Proof.
  assert (H : fst (drv_GetModemStatus (mkDriver FT_OK (FT_OK, []) (fun _ => FT_OK) (fun _ => FT_OK)
        FT_OK FT_OK (FT_OK, (EmptyString, EmptyString, EmptyString)) (FT_OK, 0) FT_OK
        (fun _ => (FT_OK, 0)) FT_OK FT_OK FT_OK FT_OK (FT_IO_ERROR, 0) (FT_OK, (0, 0, 2))
        (FT_OK, 0%nat) (fun _ => (FT_OK, [])))) <> FT_OK) by discriminate.
  split; [exact H |].
  exact (proj1 (on_FTDImodemError_query_failure _ world_init H)).
Defined.

(** X10: on a closed object [pinoutSignals] returns [NoSignal] without any
    driver call or mutex operation and changes nothing. *)
Theorem pinoutSignals_closed (d : Driver) (w : World) :
  isOpen (dev w) = false -> pinoutSignals d w = (NoSignal, w).
Proof. intros H. unfold pinoutSignals. run_m. rewrite H. reflexivity. Qed.

Lemma pinoutSignals_closed_witness :
  isOpen (dev world_init) = false /\
  pinoutSignals (drv_with 1 255 0 []) world_init = (NoSignal, world_init).
Proof.
  assert (H : isOpen (dev world_init) = false) by reflexivity.
  split; [exact H | exact (pinoutSignals_closed _ world_init H)].
Defined.

(** X11: on an open object, a failed modem-status query makes
    [pinoutSignals] return [NoSignal] and set the error string, leaving the
    error flags unchanged and emitting no signal. *)
Theorem pinoutSignals_query_failure (d : Driver) (w : World) :
  isOpen (dev w) = true -> fst (drv_GetModemStatus d) <> FT_OK ->
  fst (pinoutSignals d w) = NoSignal /\
  errFlag (dev (snd (pinoutSignals d w))) = errFlag (dev w) /\
  errorString (dev (snd (pinoutSignals d w))) =
    "an error occured while reading the modem status"%string /\
  trace (snd (pinoutSignals d w)) =
    trace w ++ [MutexLock; Call_GetModemStatus; MutexUnlock].
Proof.
  intros Ho. unfold pinoutSignals. destruct (drv_GetModemStatus d) as [r ms]. simpl.
  intros Hr. apply Z.eqb_neq in Hr. run_m. rewrite Ho. simpl. rewrite Hr. simpl.
  repeat split. rewrite <- !app_assoc. reflexivity.
Qed.

Lemma pinoutSignals_query_failure_witness :
  isOpen (dev world_open) = true /\
  fst (pinoutSignals (mkDriver FT_OK (FT_OK, []) (fun _ => FT_OK) (fun _ => FT_OK) FT_OK FT_OK
        (FT_OK, (EmptyString, EmptyString, EmptyString)) (FT_OK, 0) FT_OK
        (fun _ => (FT_OK, 0)) FT_OK FT_OK FT_OK FT_OK (FT_IO_ERROR, 255) (FT_OK, (0, 0, 2))
        (FT_OK, 0%nat) (fun _ => (FT_OK, []))) world_open) = NoSignal.
Proof.
  assert (H1 : isOpen (dev world_open) = true) by (vm_compute; reflexivity).
  split; [exact H1 |].
  apply (pinoutSignals_query_failure _ world_open H1). discriminate.
Defined.

Lemma testbit_byte_high (c i : Z) :
  0 <= c < 256 -> (i < 0 \/ 8 <= i) -> Z.testbit c i = false.
Proof.
  intros Hc [Hi | Hi].
  - apply Z.testbit_neg_r. exact Hi.
  - destruct (Z.eq_dec c 0) as [-> | Hnz]; [apply Z.bits_0 |].
    apply Z.bits_above_log2; [lia |].
    apply Z.log2_lt_pow2; [lia |]. apply Z.lt_le_trans with (2 ^ 8); [lia |].
    apply Z.pow_le_mono_r; lia.
Qed.

Lemma pinout_of_bits (ms : Z) :
  let r := pinout_of ms in
  Z.testbit r 1 = Z.testbit ms 7 /\
  Z.testbit r 5 = Z.testbit ms 6 /\
  Z.testbit r 4 = Z.testbit ms 5 /\
  Z.testbit r 7 = Z.testbit ms 4 /\
  (forall i, i <> 1 -> i <> 4 -> i <> 5 -> i <> 7 -> Z.testbit r i = false).
Proof.
  cbv zeta. unfold pinout_of.
  change 128 with (2 ^ 7). change 64 with (2 ^ 6). change 32 with (2 ^ 5). change 16 with (2 ^ 4).
  rewrite !land_pow2_eqb0 by lia.
  destruct (Z.testbit ms 7), (Z.testbit ms 6), (Z.testbit ms 5), (Z.testbit ms 4);
    cbv [negb NoSignal ReceivedDataSignal RingIndicatorSignal DataSetReadySignal ClearToSendSignal];
    cbn [Z.lor Pos.lor];
    (split; [reflexivity | split; [reflexivity | split; [reflexivity |
            split; [reflexivity |]]]]);
    intros i H1 H4 H5 H7;
    (destruct (Z.lt_decidable i 0) as [Hn | Hn];
     [apply testbit_byte_high; lia |]);
    (destruct (Z.lt_decidable i 8) as [H8 | H8];
     [| apply testbit_byte_high; lia]);
    assert (i = 0 \/ i = 2 \/ i = 3 \/ i = 6) as Hi by lia;
    destruct Hi as [-> | [-> | [-> | ->]]]; reflexivity.
Qed.

(** X12: on an open object with a successful query, [pinoutSignals] maps
    status bit 7 (RLSD) to [ReceivedDataSignal], bit 6 (RI) to
    [RingIndicatorSignal], bit 5 (DSR) to [DataSetReadySignal] and bit 4 (CTS)
    to [ClearToSendSignal]; no other bit of the result is ever set. *)
Theorem pinoutSignals_bits (d : Driver) (w : World) (ms : Z) :
  isOpen (dev w) = true ->
  drv_GetModemStatus d = (FT_OK, ms) ->
  let r := fst (pinoutSignals d w) in
  Z.testbit r 1 = Z.testbit ms 7 /\
  Z.testbit r 5 = Z.testbit ms 6 /\
  Z.testbit r 4 = Z.testbit ms 5 /\
  Z.testbit r 7 = Z.testbit ms 4 /\
  (forall i, i <> 1 -> i <> 4 -> i <> 5 -> i <> 7 -> Z.testbit r i = false).
Proof.
  intros Ho Hd.
  assert (E : fst (pinoutSignals d w) = pinout_of ms).
  { unfold pinoutSignals. rewrite Hd. run_m. rewrite Ho. reflexivity. }
  cbv zeta. rewrite E. exact (pinout_of_bits ms).
Qed.

Lemma pinoutSignals_bits_witness :
  isOpen (dev world_open) = true /\
  drv_GetModemStatus (drv_with 1 144 0 []) = (FT_OK, 144) /\
  fst (pinoutSignals (drv_with 1 144 0 []) world_open) = Z.lor ReceivedDataSignal ClearToSendSignal /\
  Z.testbit (fst (pinoutSignals (drv_with 1 144 0 []) world_open)) 7 = true.
Proof.
  assert (H1 : isOpen (dev world_open) = true) by (vm_compute; reflexivity).
  assert (H2 : drv_GetModemStatus (drv_with 1 144 0 []) = (FT_OK, 144)) by reflexivity.
  split; [exact H1 | split; [exact H2 | split; [vm_compute; reflexivity |]]].
  destruct (pinoutSignals_bits _ world_open 144 H1 H2) as [_ [_ [_ [H7 _]]]].
  rewrite H7. reflexivity.
Defined.

Lemma find_device_none (id : Z) (ids : list Z) (n : nat) :
  ~ In id ids -> find_device id ids n = None.
Proof.
  revert n. induction ids as [|x xs IH]; intros n H; simpl; [reflexivity |].
  destruct (Z.eqb_spec x id) as [-> | Hne].
  - exfalso. apply H. left. reflexivity.
  - apply IH. intros Hin. apply H. right. exact Hin.
Qed.

Lemma find_device_first (id : Z) (ids : list Z) (n i : nat) :
  nth_error ids i = Some id ->
  (forall j, (j < i)%nat -> nth_error ids j <> Some id) ->
  find_device id ids n = Some (n + i)%nat.
Proof.
  revert n i. induction ids as [|x xs IH]; intros n i Hi Hbefore.
  - destruct i; discriminate.
  - simpl. destruct i as [|i].
    + simpl in Hi. injection Hi as ->. rewrite Z.eqb_refl. f_equal. lia.
    + destruct (Z.eqb_spec x id) as [-> | Hne].
      * exfalso. apply (Hbefore 0%nat); [lia | reflexivity].
      * rewrite (IH (S n) i Hi); [f_equal; lia |].
        intros j Hj. apply (Hbefore (S j)). lia.
Qed.

(** X13: when no node of the device list has the ID [VID * 0x10000 + PID],
    [open] returns false after the two enumeration calls without calling
    [FT_Open]; only the error string changes, so a closed object stays
    closed. *)
Theorem open_no_matching_device (d : Driver) (mode : Z) (w : World) (ids : list Z) :
  drv_CreateDeviceInfoList d = FT_OK ->
  drv_GetDeviceInfoList d = (FT_OK, ids) ->
  ~ In (to_uint32 (usbVID (dev w) * 65536 + usbPID (dev w))) ids ->
  open d mode w =
    (false, mkWorld (set_errorString "no compatible devices found" (dev w))
              (trace w ++ [Call_CreateDeviceInfoList; Call_GetDeviceInfoList])).
Proof.
  intros Hc Hl Hn. unfold open. rewrite Hc, Hl. run_m.
  rewrite (find_device_none _ _ 0 Hn). simpl. rewrite <- app_assoc. reflexivity.
Qed.

Lemma open_no_matching_device_witness :
  drv_CreateDeviceInfoList (drv_with 1 0 0 []) = FT_OK /\
  isOpen (dev (snd (open (mkDriver FT_OK (FT_OK, [67330069]) (fun _ => FT_OK) (fun _ => FT_OK)
        FT_OK FT_OK (FT_OK, (EmptyString, EmptyString, EmptyString)) (FT_OK, 0) FT_OK
        (fun _ => (FT_OK, 0)) FT_OK FT_OK FT_OK FT_OK (FT_OK, 0) (FT_OK, (0, 0, 0))
        (FT_OK, 0%nat) (fun _ => (FT_OK, []))) ReadWrite world_init))) = false.
Proof.
  split; [reflexivity |].
  rewrite (open_no_matching_device (mkDriver FT_OK (FT_OK, [67330069]) (fun _ => FT_OK)
        (fun _ => FT_OK) FT_OK FT_OK (FT_OK, (EmptyString, EmptyString, EmptyString)) (FT_OK, 0)
        FT_OK (fun _ => (FT_OK, 0)) FT_OK FT_OK FT_OK FT_OK (FT_OK, 0) (FT_OK, (0, 0, 0))
        (FT_OK, 0%nat) (fun _ => (FT_OK, []))) ReadWrite world_init [67330069]
        eq_refl eq_refl).
  - reflexivity.
  - simpl. intros [H | []]. discriminate H.
Defined.

(** X14: when the device info list is read, [open] calls [FT_Open] on the
    first node whose ID matches, right after the two enumeration calls. *)
Theorem open_selects_first (d : Driver) (mode : Z) (w : World) (ids : list Z) (i : nat) :
  drv_CreateDeviceInfoList d = FT_OK ->
  drv_GetDeviceInfoList d = (FT_OK, ids) ->
  nth_error ids i = Some (to_uint32 (usbVID (dev w) * 65536 + usbPID (dev w))) ->
  (forall j, (j < i)%nat ->
     nth_error ids j <> Some (to_uint32 (usbVID (dev w) * 65536 + usbPID (dev w)))) ->
  firstn 3 (new_events w (snd (open d mode w))) =
    [Call_CreateDeviceInfoList; Call_GetDeviceInfoList; Call_Open i].
Proof.
  intros Hc Hl Hi Hb. unfold open, new_events. rewrite Hc, Hl. run_m.
  rewrite (find_device_first _ _ 0 i Hi Hb). simpl.
  destruct (drv_EE_Read d) as [r2 [[descr serial] manuf]].
  destruct (drv_GetLibraryVersion d) as [r3 lv].
  unfold close, bind, ret, log, emit, modify, get, setErrorString. simpl.
  repeat match goal with
         | |- context [if ?c then _ else _] => destruct c
         end;
    simpl; rewrite <- ?app_assoc, skipn_app, Nat.sub_diag, skipn_all; reflexivity.
Qed.

Lemma open_selects_first_witness :
  firstn 3 (new_events world_init
    (snd (open (with_DeviceInfoList (FT_OK, [5; 67330049; 67330049]) (drv_with 1 0 0 []))
               ReadWrite world_init))) =
  [Call_CreateDeviceInfoList; Call_GetDeviceInfoList; Call_Open 1].
Proof.
  apply (open_selects_first _ ReadWrite world_init [5; 67330049; 67330049] 1).
  - reflexivity.
  - reflexivity.
  - vm_compute. reflexivity.
  - intros j Hj. assert (j = 0%nat) as -> by lia. vm_compute. discriminate.
Defined.

(** X15: whenever [open] fails after a successful [FT_Open] of the device
    it selected, it has called [FT_Close] and the object is closed: no
    failing path leaves the handle open. *)
Theorem open_failure_closes (d : Driver) (mode : Z) (w : World) (i : nat) :
  fst (open d mode w) = false ->
  In (Call_Open i) (new_events w (snd (open d mode w))) ->
  drv_Open d i = FT_OK ->
  isOpen (dev (snd (open d mode w))) = false /\
  In Call_Close (new_events w (snd (open d mode w))).
Proof.
  intros Hf Hin Ho. revert Hf Hin. unfold open, new_events.
  destruct (drv_GetDeviceInfoList d) as [r1 ids].
  destruct (drv_EE_Read d) as [r2 [[descr serial] manuf]].
  destruct (drv_GetLibraryVersion d) as [r3 lv].
  unfold close, bind, ret, log, emit, modify, get, setErrorString. simpl.
  repeat match goal with
         | |- context [if ?c then _ else _] => let E := fresh "E" in destruct c eqn:E
         | |- context [match find_device ?k ?l ?n with _ => _ end] =>
             destruct (find_device k l n)
         end;
    simpl; rewrite <- ?app_assoc, skipn_app, Nat.sub_diag, skipn_all; simpl;
    intros Hf Hin; try discriminate Hf.
  all: try (split; [reflexivity | simpl; tauto]).
  all: repeat (destruct Hin as [Hin | Hin]; [try discriminate Hin |]); try contradiction.
  all: injection Hin as ->; rewrite Ho in *; discriminate.
Qed.

Lemma open_failure_closes_witness :
  isOpen (dev (snd (open (with_SetBaudRate (fun _ => FT_IO_ERROR) (drv_with 1 0 0 []))
                         ReadWrite world_init))) = false.
Proof.
  apply (open_failure_closes _ ReadWrite world_init 0).
  - reflexivity.
  - vm_compute. tauto.
  - reflexivity.
Defined.

Lemma to_uchar_high_bytes (lv : Z) :
  to_uchar (Z.land lv 16711680) = 0 /\ to_uchar (Z.land lv 65280) = 0 /\
  to_uchar (Z.land lv 255) = lv mod 256.
Proof.
  unfold to_uchar. change 256 with (2 ^ 8).
  rewrite <- !Z.land_ones by lia. rewrite <- !Z.land_assoc.
  change (Z.land 16711680 (Z.ones 8)) with 0.
  change (Z.land 65280 (Z.ones 8)) with 0.
  change (Z.land 255 (Z.ones 8)) with (Z.ones 8).
  rewrite !Z.land_0_r. split; [reflexivity | split; [reflexivity |]].
  reflexivity.
Qed.

(** X16: when [open] succeeds the open mode is the requested one, the
    stored library version is [(0, 0, v mod 256)] (the major and minor
    bytes are masked but not shifted before the [uchar] conversion, so they
    are always 0), the error flags, baud rate and receive buffer are
    untouched, and the last event is the [connected] signal. *)
Theorem open_success_state (d : Driver) (mode : Z) (w : World) :
  fst (open d mode w) = true ->
  let s := dev (snd (open d mode w)) in
  openMode s = mode /\
  libraryVersion s = (0, 0, snd (drv_GetLibraryVersion d) mod 256) /\
  errFlag s = errFlag (dev w) /\
  FTDIbaudRate s = FTDIbaudRate (dev w) /\
  FTDIreadBuffer s = FTDIreadBuffer (dev w) /\
  last (new_events w (snd (open d mode w))) MutexLock = Emit connected.
Proof.
  cbv zeta. unfold open, new_events.
  destruct (drv_GetDeviceInfoList d) as [r1 ids].
  destruct (drv_EE_Read d) as [r2 [[descr serial] manuf]].
  destruct (drv_GetLibraryVersion d) as [r3 lv].
  destruct (to_uchar_high_bytes lv) as [E1 [E2 E3]].
  unfold close, bind, ret, log, emit, modify, get, setErrorString. simpl.
  repeat match goal with
         | |- context [if ?c then _ else _] => destruct c
         | |- context [match find_device ?k ?l ?n with _ => _ end] =>
             destruct (find_device k l n)
         end;
    simpl; intros Hf; try discriminate Hf.
  rewrite E1, E2, E3, <- ?app_assoc, skipn_app, Nat.sub_diag, skipn_all. simpl.
  repeat split; reflexivity.
Qed.

Lemma open_success_state_witness :
  libraryVersion (dev (snd (open (drv_with 1 0 0 []) ReadWrite world_init))) = (0, 0, 20).
Proof.
  assert (H : fst (open (drv_with 1 0 0 []) ReadWrite world_init) = true)
    by (vm_compute; reflexivity).
  exact (proj1 (proj2 (open_success_state (drv_with 1 0 0 []) ReadWrite world_init H))).
Defined.

(** X17: [setLineProperty] stores the new line property before calling the
    driver, so it is kept even when the call fails; the result is whether
    the driver accepted it, and a failure never closes the object. *)
Theorem setLineProperty_commits_first (d : Driver) (line : LineProperty) (w : World) :
  let w' := snd (setLineProperty d line w) in
  FTDIlineProperty (dev w') = line /\
  fst (setLineProperty d line w) = (drv_SetDataCharacteristics d =? FT_OK) /\
  openMode (dev w') = openMode (dev w).
Proof.
  cbv zeta. unfold setLineProperty. destruct (line_params line) as [parity sbit]. run_m.
  destruct (drv_SetDataCharacteristics d =? FT_OK); simpl; repeat split; reflexivity.
Qed.

(** X18: [setFlowControl] stores the new flow control only when the driver
    accepts it; the result is whether it did, and a failure never closes
    the object. *)
Theorem setFlowControl_commits_on_success (d : Driver) (flow : FlowControl) (w : World) :
  let w' := snd (setFlowControl d flow w) in
  FTDIflowControl (dev w') =
    (if drv_SetFlowControl d =? FT_OK then flow else FTDIflowControl (dev w)) /\
  fst (setFlowControl d flow w) = (drv_SetFlowControl d =? FT_OK) /\
  openMode (dev w') = openMode (dev w).
Proof.
  cbv zeta. unfold setFlowControl. run_m.
  destruct (drv_SetFlowControl d =? FT_OK); simpl; repeat split; reflexivity.
Qed.

(** X19: on an open object [setDataTerminalReady] issues the set or clear
    DTR call under the mutex, stores the new DTR state only when the driver
    accepts it, returns whether it did and never closes the object. *)
Theorem setDataTerminalReady_open (d : Driver) (set : bool) (w : World) :
  isOpen (dev w) = true ->
  let w' := snd (setDataTerminalReady d set w) in
  FTDIdtr (dev w') = (if drv_SetClrDtr d =? FT_OK then set else FTDIdtr (dev w)) /\
  fst (setDataTerminalReady d set w) = (drv_SetClrDtr d =? FT_OK) /\
  openMode (dev w') = openMode (dev w) /\
  firstn 3 (new_events w w') =
    [MutexLock; if set then Call_SetDtr else Call_ClrDtr; MutexUnlock].
Proof.
  intros Ho. cbv zeta. unfold setDataTerminalReady, new_events. run_m. rewrite Ho. simpl.
  destruct (drv_SetClrDtr d =? FT_OK); simpl;
    rewrite <- ?app_assoc, skipn_app, Nat.sub_diag, skipn_all; simpl;
    repeat split; reflexivity.
Qed.

Lemma setDataTerminalReady_open_witness :
  FTDIdtr (dev (snd (setDataTerminalReady (drv_with 1 0 0 []) true world_open))) = true.
Proof.
  assert (H : isOpen (dev world_open) = true) by (vm_compute; reflexivity).
  exact (proj1 (setDataTerminalReady_open (drv_with 1 0 0 []) true world_open H)).
Defined.

(** X20: on an open object [setRequestToSend] issues the set or clear RTS
    call under the mutex, stores the new RTS state only when the driver
    accepts it, returns whether it did and never closes the object. *)
Theorem setRequestToSend_open (d : Driver) (set : bool) (w : World) :
  isOpen (dev w) = true ->
  let w' := snd (setRequestToSend d set w) in
  FTDIrts (dev w') = (if drv_SetClrRts d =? FT_OK then set else FTDIrts (dev w)) /\
  fst (setRequestToSend d set w) = (drv_SetClrRts d =? FT_OK) /\
  openMode (dev w') = openMode (dev w) /\
  firstn 3 (new_events w w') =
    [MutexLock; if set then Call_SetRts else Call_ClrRts; MutexUnlock].
Proof.
  intros Ho. cbv zeta. unfold setRequestToSend, new_events. run_m. rewrite Ho. simpl.
  destruct (drv_SetClrRts d =? FT_OK); simpl;
    rewrite <- ?app_assoc, skipn_app, Nat.sub_diag, skipn_all; simpl;
    repeat split; reflexivity.
Qed.

Lemma setRequestToSend_open_witness :
  fst (setRequestToSend (drv_with 1 0 0 []) false world_open) = true.
Proof.
  assert (H : isOpen (dev world_open) = true) by (vm_compute; reflexivity).
  exact (proj1 (proj2 (setRequestToSend_open (drv_with 1 0 0 []) false world_open H))).
Defined.

Lemma to_int32_to_uint32 (b : Z) :
  - 2 ^ 31 <= b < 2 ^ 31 -> to_int32 (to_uint32 b) = b.
Proof.
  intros Hb. unfold to_int32, to_uint32. rewrite Z.mod_mod by lia.
  destruct (Z.le_gt_cases 0 b) as [Hp | Hn].
  - rewrite Z.mod_small by lia. destruct (Z.ltb_spec b (2 ^ 31)); lia.
  - rewrite <- (Z.mod_unique b (2 ^ 32) (-1) (b + 2 ^ 32)) by lia.
    destruct (Z.ltb_spec (b + 2 ^ 32) (2 ^ 31)); lia.
Qed.

(** X21: for every [qint32] value [b], [baudRate] after [setBaudRate b]
    returns [b], whether the object is open or closed and whether the
    driver call succeeds: the [quint32] store and the [qint32] read are
    inverse, and the close on failure keeps the stored rate. *)
Theorem setBaudRate_baudRate_roundtrip (d : Driver) (baud : Z) (w : World) :
  - 2 ^ 31 <= baud < 2 ^ 31 ->
  baudRate (dev (snd (setBaudRate d baud w))) = baud.
Proof.
  intros Hb. unfold setBaudRate, baudRate.
  unfold close, bind, ret, log, emit, modify, get, setErrorString. simpl.
  change (isOpen (set_config (to_uint32 baud) (FTDIlineProperty (dev w))
            (FTDIflowControl (dev w)) (FTDIdtr (dev w)) (FTDIrts (dev w)) (dev w)))
    with (isOpen (dev w)).
  destruct (isOpen (dev w)); [destruct (drv_SetBaudRate d (to_uint32 baud) =? FT_OK) |];
    simpl; cbn [FTDIbaudRate set_config set_openMode set_errorString];
    apply to_int32_to_uint32; exact Hb.
Qed.

Lemma setBaudRate_baudRate_roundtrip_witness :
  baudRate (dev (snd (setBaudRate (with_SetBaudRate (fun _ => FT_IO_ERROR) (drv_with 1 0 0 []))
                                  (-9600) world_open))) = -9600.
Proof. apply setBaudRate_baudRate_roundtrip. lia. Defined.

(** X22: [writeData] does not test whether the object is open: it always
    issues [FT_Write] under the mutex, and the only state it changes is the
    error string, on failure. *)
Theorem writeData_unguarded (d : Driver) (data : list Byte.byte) (w : World) :
  let w' := snd (writeData d data w) in
  new_events w w' = [MutexLock; Call_Write data; MutexUnlock] /\
  dev w' = (if fst (drv_Write d data) =? FT_OK then dev w
            else set_errorString "an error occured while writing to the port" (dev w)).
Proof.
  cbv zeta. unfold writeData, new_events. destruct (drv_Write d data) as [r n]. run_m.
  destruct (r =? FT_OK); simpl;
    rewrite <- ?app_assoc, skipn_app, Nat.sub_diag, skipn_all; simpl; split; reflexivity.
Qed.

Lemma ports_loop_all_ok (d : Driver) (ee : nat -> FT_STATUS * EEData) (key : Z)
  (ids : list Z) :
  (forall i, drv_Open d i = FT_OK) -> (forall i, fst (ee i) = FT_OK) ->
  forall n lst w,
  ports_loop d ee key ids n lst w =
    (lst ++ map (fun i => info_of (snd (ee i))) (matching key ids n),
     mkWorld (dev w) (trace w ++ List.concat (map port_events (matching key ids n)))).
Proof.
  intros Ho He. induction ids as [|id ids IH]; intros n lst w; simpl.
  - unfold ret. rewrite !app_nil_r. destruct w; reflexivity.
  - destruct (id =? key).
    + unfold bind, log, ret. simpl. rewrite Ho. simpl.
      specialize (He n). destruct (ee n) as [r e]. simpl in He. subst r. simpl.
      rewrite IH. simpl. rewrite <- !app_assoc. reflexivity.
    + apply IH.
Qed.

(** X23: when enumeration, every [FT_Open] and every [FT_EE_Read] succeed,
    [availablePorts] lists the EEPROM data of exactly the matching nodes,
    in index order; each opened handle is closed right after its read, and
    the object state is not touched. *)
Theorem availablePorts_all_ok (d : Driver) (ee : nat -> FT_STATUS * EEData)
  (VID PID : Z) (ids : list Z) (w : World) :
  drv_CreateDeviceInfoList d = FT_OK ->
  drv_GetDeviceInfoList d = (FT_OK, ids) ->
  (forall i, drv_Open d i = FT_OK) -> (forall i, fst (ee i) = FT_OK) ->
  let key := to_uint32 (VID * 65536 + PID) in
  availablePorts d ee VID PID w =
    (map (fun i => info_of (snd (ee i))) (matching key ids 0),
     mkWorld (dev w) (trace w ++ [Call_CreateDeviceInfoList; Call_GetDeviceInfoList] ++
                      List.concat (map port_events (matching key ids 0)))).
Proof.
  intros Hc Hl Ho He. cbv zeta. unfold availablePorts. rewrite Hc, Hl.
  unfold bind, log, ret. simpl. rewrite (ports_loop_all_ok d ee _ ids Ho He). simpl.
  rewrite <- !app_assoc. reflexivity.
Qed.

Lemma availablePorts_all_ok_witness :
  fst (availablePorts (with_DeviceInfoList (FT_OK, [67330049; 5; 67330049]) (drv_with 1 0 0 []))
         (fun _ => (FT_OK, ee_sample)) FTDI_VID FTDI_PID world_init) =
  [info_of ee_sample; info_of ee_sample].
Proof.
  rewrite (availablePorts_all_ok
             (with_DeviceInfoList (FT_OK, [67330049; 5; 67330049]) (drv_with 1 0 0 []))
             (fun _ => (FT_OK, ee_sample)) FTDI_VID FTDI_PID
             [67330049; 5; 67330049] world_init eq_refl eq_refl
             (fun _ => eq_refl) (fun _ => eq_refl)).
  reflexivity.
Defined.

Lemma ports_loop_ee_failure (d : Driver) (ee : nat -> FT_STATUS * EEData) (key : Z)
  (i : nat) (rest : list nat) (ids : list Z) :
  drv_Open d i = FT_OK -> fst (ee i) <> FT_OK ->
  forall n lst w, matching key ids n = i :: rest ->
  ports_loop d ee key ids n lst w = (lst, mkWorld (dev w) (trace w ++ [Call_Open i; Call_EE_Read])).
Proof.
  intros Ho He. induction ids as [|id ids IH]; intros n lst w Hm; simpl in *.
  - discriminate Hm.
  - destruct (id =? key).
    + injection Hm as <- _. unfold bind, log, ret. simpl. rewrite Ho. simpl.
      destruct (ee n) as [r e]. simpl in He.
      destruct (Z.eqb_spec r FT_OK) as [E | E]; [contradiction |]. simpl.
      rewrite <- app_assoc. reflexivity.
    + apply IH. exact Hm.
Qed.

(** X24: when [FT_EE_Read] fails on the first matching device after its
    [FT_Open] succeeded, [availablePorts] returns the empty list and never
    calls [FT_Close] on the handle it opened. *)
Theorem availablePorts_ee_failure_leaks (d : Driver) (ee : nat -> FT_STATUS * EEData)
  (VID PID : Z) (ids : list Z) (i : nat) (rest : list nat) (w : World) :
  drv_CreateDeviceInfoList d = FT_OK ->
  drv_GetDeviceInfoList d = (FT_OK, ids) ->
  matching (to_uint32 (VID * 65536 + PID)) ids 0 = i :: rest ->
  drv_Open d i = FT_OK -> fst (ee i) <> FT_OK ->
  availablePorts d ee VID PID w =
    ([], mkWorld (dev w) (trace w ++ [Call_CreateDeviceInfoList; Call_GetDeviceInfoList;
                                      Call_Open i; Call_EE_Read])).
Proof.
  intros Hc Hl Hm Ho He. unfold availablePorts. rewrite Hc, Hl.
  unfold bind, log, ret. simpl. rewrite (ports_loop_ee_failure d ee _ i rest ids Ho He _ _ _ Hm).
  simpl. rewrite <- !app_assoc. reflexivity.
Qed.

Lemma availablePorts_ee_failure_leaks_witness :
  availablePorts (with_DeviceInfoList (FT_OK, [5; 67330049; 67330049]) (drv_with 1 0 0 []))
    (fun _ => (FT_IO_ERROR, ee_sample)) FTDI_VID FTDI_PID world_init =
  ([], mkWorld (dev world_init) [Call_CreateDeviceInfoList; Call_GetDeviceInfoList;
                                 Call_Open 1; Call_EE_Read]).
Proof.
  apply (availablePorts_ee_failure_leaks _ _ FTDI_VID FTDI_PID [5; 67330049; 67330049] 1 [2%nat]).
  - reflexivity.
  - reflexivity.
  - vm_compute. reflexivity.
  - reflexivity.
  - discriminate.
Defined.
